(** * bcfg2-lint: plugin orchestration and error classification

    A shallow embedding of [src/lib/Bcfg2/Server/Lint/__init__.py]:
    the [ErrorHandler] (registry of error kinds, counters, message
    rendering), the [Plugin] file filter and the [CLI] runner with its
    two phases and its exit code.

    Conventions.
    - A Python [str] is a [string]: a sequence of characters with
      code points below 256.  The character classes of [splitlines],
      [strip] and [lstrip] are those of Python 3 on these code points.
    - Python integers are [Z].
    - A dict that is only iterated and inserted into is an association
      list in insertion order.
    - Code that mutates the shared [ErrorHandler], logs, prints or may
      raise lives in the monad [M]: a state transformer over [World]
      whose result is either [Normal] or [Raised]; the state reached
      before an exception is kept, as in Python. *)

From Stdlib Require Import String Ascii List ZArith Bool Lia.
From Stdlib Require Import DecimalString.
Import ListNotations.

Local Open Scope string_scope.
Local Open Scope Z_scope.

(* ================================================================== *)
(** ** Python built-ins used by the source *)
(* ================================================================== *)

Module Py.

(** [sub in s] for two strings. *)
Fixpoint contains (sub s : string) : bool :=
  String.prefix sub s ||
  match s with
  | EmptyString => false
  | String _ s' => contains sub s'
  end.

(** [x in xs] for a list of strings. *)
Definition mem (x : string) (xs : list string) : bool :=
  existsb (String.eqb x) xs.

(** White space for [str.strip] and [str.lstrip]: the characters for
    which [str.isspace] holds, that is tab to carriage return (9-13),
    the four separators 28-31, the space, next line (133) and the
    no-break space (160). *)
Definition is_space (c : ascii) : bool :=
  let n := nat_of_ascii c in
  (Nat.eqb n 32 || (Nat.leb 9 n && Nat.leb n 13)
   || (Nat.leb 28 n && Nat.leb n 31) || Nat.eqb n 133 || Nat.eqb n 160)%bool.

Definition LF : ascii := ascii_of_nat 10.
Definition CR : ascii := ascii_of_nat 13.

(** Line boundaries for [str.splitlines]: line feed, vertical tab,
    form feed, carriage return (10-13), the separators 28-30 and next
    line (133); a carriage return followed by a line feed is one
    boundary. *)
Definition is_linebreak (c : ascii) : bool :=
  let n := nat_of_ascii c in
  ((Nat.leb 10 n && Nat.leb n 13) || (Nat.leb 28 n && Nat.leb n 30)
   || Nat.eqb n 133)%bool.

(** [s.lstrip()] *)
Fixpoint lstrip (s : string) : string :=
  match s with
  | EmptyString => EmptyString
  | String c s' => if is_space c then lstrip s' else s
  end.

(** [s.rstrip()] *)
Fixpoint rstrip (s : string) : string :=
  match s with
  | EmptyString => EmptyString
  | String c s' =>
      match rstrip s' with
      | EmptyString => if is_space c then EmptyString else String c EmptyString
      | r => String c r
      end
  end.

(** [s.strip()] *)
Definition strip (s : string) : string := rstrip (lstrip s).

(** [s.splitlines()], with [cur] the line read so far.  A final line
    with no terminator is kept unless it is empty. *)
Fixpoint splitlines_from (cur s : string) : list string :=
  match s with
  | EmptyString =>
      match cur with
      | EmptyString => []
      | _ => [cur]
      end
  | String c rest =>
      if is_linebreak c then
        match rest with
        | String c2 rest' =>
            if (Ascii.eqb c CR && Ascii.eqb c2 LF)%bool
            then cur :: splitlines_from EmptyString rest'
            else cur :: splitlines_from EmptyString rest
        | EmptyString => cur :: splitlines_from EmptyString rest
        end
      else splitlines_from (cur ++ String c EmptyString) rest
  end.

Definition splitlines (s : string) : list string :=
  splitlines_from EmptyString s.

(** ["%d" % n] *)
Definition fmt_d (n : Z) : string := NilZero.string_of_int (Z.to_int n).

(** Padding of ["%-35s"]: the string, then spaces up to the width. *)
Fixpoint spaces (n : nat) : string :=
  match n with
  | O => EmptyString
  | S n' => String " " (spaces n')
  end.

Definition ljust (width : nat) (s : string) : string :=
  s ++ spaces (width - String.length s).

(** ["%s" % xs] for a list of names: the [repr] of a list of plain
    strings. *)
Definition fmt_list (xs : list string) : string :=
  "[" ++ String.concat ", " (map (fun x => "'" ++ x ++ "'") xs) ++ "]".

(** Truth value of an integer. *)
Definition truthy (n : Z) : bool := negb (n =? 0).

End Py.

(* ================================================================== *)
(** ** [os.path] on a POSIX system *)
(* ================================================================== *)

Module posixpath.

Definition sep : ascii := "/"%char.

Definition isabs (p : string) : bool := String.prefix "/" p.

Fixpoint endswith_sep (s : string) : bool :=
  match s with
  | EmptyString => false
  | String c EmptyString => Ascii.eqb c sep
  | String _ s' => endswith_sep s'
  end.

(** [os.path.join(a, b)] *)
Definition join (a b : string) : string :=
  if isabs b then b
  else match a with
       | EmptyString => b
       | _ => if endswith_sep a then a ++ b else a ++ "/" ++ b
       end.

(** [path.split('/')], with [cur] the component read so far. *)
Fixpoint split_from (cur s : string) : list string :=
  match s with
  | EmptyString => [cur]
  | String c rest =>
      if Ascii.eqb c sep then cur :: split_from EmptyString rest
      else split_from (cur ++ String c EmptyString) rest
  end.

Definition split_sep (s : string) : list string :=
  split_from EmptyString s.

(** The loop of [normpath] over the components; [new_comps] is kept
    reversed (its head is [new_comps[-1]]). *)
Fixpoint norm_comps (initial_slashes : nat) (comps new_comps : list string)
  : list string :=
  match comps with
  | [] => rev new_comps
  | comp :: rest =>
      if (String.eqb comp "" || String.eqb comp ".")%bool
      then norm_comps initial_slashes rest new_comps
      else if (negb (String.eqb comp "..")
               || (Nat.eqb initial_slashes 0
                   && match new_comps with [] => true | _ => false end)
               || match new_comps with
                  | last :: _ => String.eqb last ".."
                  | [] => false
                  end)%bool
      then norm_comps initial_slashes rest (comp :: new_comps)
      else match new_comps with
           | _ :: popped => norm_comps initial_slashes rest popped
           | [] => norm_comps initial_slashes rest new_comps
           end
  end.

(** [os.path.normpath(path)] *)
Definition normpath (path : string) : string :=
  match path with
  | EmptyString => "."
  | _ =>
      let initial_slashes :=
        if String.prefix "/" path then
          if (String.prefix "//" path && negb (String.prefix "///" path))%bool
          then 2%nat else 1%nat
        else 0%nat in
      let comps := norm_comps initial_slashes (split_sep path) [] in
      let joined := String.concat "/" comps in
      let res := match initial_slashes with
                 | O => joined
                 | S O => "/" ++ joined
                 | _ => "//" ++ joined
                 end in
      match res with
      | EmptyString => "."
      | _ => res
      end
  end.

(** [os.path.abspath(path)], with [cwd] the result of [os.getcwd()]. *)
Definition abspath (cwd path : string) : string :=
  if isabs path then normpath path else normpath (join cwd path).

End posixpath.

(* ================================================================== *)
(** ** The process: shared handler, log stream, standard output *)
(* ================================================================== *)

(** The bound methods [self.error], [self.warn] and [self.debug] that
    [errortypes] stores. *)
Inductive Handler : Type :=
| h_error
| h_warn
| h_debug.

(** [handler.__name__] *)
Definition Handler_name (h : Handler) : string :=
  match h with
  | h_error => "error"
  | h_warn => "warn"
  | h_debug => "debug"
  end.

(** The attributes of an [ErrorHandler] object.  [_wrapper] is a
    function attribute in the source as well. *)
Record ErrorHandler : Type := mkErrorHandler {
  errors : Z;
  warnings : Z;
  _wrapper : string -> list string;
  errortypes : list (string * Handler)
}.

(** Levels of the calls made on a [logging] logger. *)
Inductive Level : Type :=
| DEBUG
| WARNING
| ERROR.


(** A Python exception. *)
Inductive exn : Type :=
| Exception (what : string).

(** How a call of [Run] ends. *)
Inductive Outcome : Type :=
| Returns
| Raises (e : exn).

(** A lint plugin class as the runner sees it.  The checks themselves
    are outside this file: [Run], given the file list the plugin was
    built with, yields the [LintError(err, msg)] calls the check makes,
    in order, and how the call ends. *)
Record PluginClass : Type := mkPluginClass {
  __name__ : string;
  is_ServerPlugin : bool;                   (* issubclass(plugin, ServerPlugin) *)
  Errors : list (string * string);          (* Errors().items() *)
  Run : option (list string) -> list (string * string) * Outcome
}.

(** Observation points of a run.  They are not data of the source:
    they record that a plugin class was instantiated, that [Run] was
    entered on the instance, and that the server core was started or
    shut down. *)
Inductive Event : Type :=
| EvConstruct (plugin : PluginClass)
| EvRun (plugin : PluginClass)
| EvCoreStart
| EvCoreShutdown.

Record World : Type := mkWorld {
  handler : ErrorHandler;          (* the one shared ErrorHandler *)
  logged : list (Level * string);  (* calls on the loggers, oldest first *)
  stdout : list string;            (* lines written by print *)
  events : list Event              (* observation points, oldest first *)
}.


Inductive result (A : Type) : Type :=
| Normal (a : A)
| Raised (e : exn).
Arguments Normal {A} a.
Arguments Raised {A} e.

Definition M (A : Type) : Type := World -> result A * World.

Definition ret {A} (a : A) : M A := fun w => (Normal a, w).

Definition raise {A} (e : exn) : M A := fun w => (Raised e, w).

Definition bind {A B} (m : M A) (f : A -> M B) : M B :=
  fun w =>
    match m w with
    | (Normal a, w') => f a w'
    | (Raised e, w') => (Raised e, w')
    end.

Declare Scope py_scope.
Delimit Scope py_scope with py.
Notation "x <- m ;; k" := (bind m (fun x => k))
  (at level 61, m at next level, right associativity) : py_scope.
Notation "m ;; k" := (bind m (fun _ => k))
  (at level 61, right associativity) : py_scope.
Local Open Scope py_scope.

(** [try: body finally: fin] *)
Definition try_finally {A} (body : M A) (fin : M unit) : M A :=
  fun w =>
    match body w with
    | (Normal a, w') =>
        match fin w' with
        | (Normal _, w'') => (Normal a, w'')
        | (Raised e, w'') => (Raised e, w'')
        end
    | (Raised e, w') =>
        match fin w' with
        | (Normal _, w'') => (Raised e, w'')
        | (Raised e', w'') => (Raised e', w'')
        end
    end.

(** [for x in xs: body(x)] *)
Fixpoint for_each {A} (xs : list A) (body : A -> M unit) : M unit :=
  match xs with
  | [] => ret tt
  | x :: rest => body x ;; for_each rest body
  end.

Definition get_handler : M ErrorHandler := fun w => (Normal (handler w), w).

Definition set_handler (h : ErrorHandler) : M unit :=
  fun w => (Normal tt, mkWorld h (logged w) (stdout w) (events w)).

Definition logger_call (lvl : Level) (text : string) : M unit :=
  fun w => (Normal tt,
            mkWorld (handler w) (logged w ++ [(lvl, text)]) (stdout w) (events w)).

Definition print (line : string) : M unit :=
  fun w => (Normal tt,
            mkWorld (handler w) (logged w) (stdout w ++ [line]) (events w)).

Definition observe (e : Event) : M unit :=
  fun w => (Normal tt,
            mkWorld (handler w) (logged w) (stdout w) (events w ++ [e])).

(* ================================================================== *)
(** ** class ErrorHandler *)
(* ================================================================== *)

(** [err in self.errortypes] and [self.errortypes[err]] *)
Fixpoint errortypes_get (err : string) (d : list (string * Handler))
  : option Handler :=
  match d with
  | [] => None
  | (k, h) :: rest => if String.eqb err k then Some h else errortypes_get err rest
  end.

(** The branch of [RegisterErrors] that picks the handler of an action. *)
Definition handler_of_action (action : string) : Handler :=
  if Py.contains "warn" action then h_warn
  else if Py.contains "err" action then h_error
  else h_debug.

(** The body of the loop of [RegisterErrors] on one item. *)
Definition register_one (item : string * string) : M unit :=
  let '(err, action) := item in
  h <- get_handler ;;
  match errortypes_get err (errortypes h) with
  | Some _ => ret tt
  | None =>
      set_handler (mkErrorHandler (errors h) (warnings h) (_wrapper h)
                     (errortypes h ++ [(err, handler_of_action action)]))
  end.

(** [ErrorHandler.RegisterErrors(errors)]; the argument is
    [errors.items()]. *)
Definition RegisterErrors (errs : list (string * string)) : M unit :=
  for_each errs register_one.

(** The inner loop of [_log] over the wrapped lines of one raw line;
    the local [firstline] is threaded through. *)
Fixpoint _log_lines (logfunc : Level) (prefix : string)
         (lines : list string) (firstline : bool) : M bool :=
  match lines with
  | [] => ret firstline
  | line :: rest =>
      if firstline then
        logger_call logfunc (prefix ++ Py.lstrip line) ;;
        _log_lines logfunc prefix rest false
      else
        logger_call logfunc line ;;
        _log_lines logfunc prefix rest firstline
  end.

(** The outer loop of [_log] over the raw lines. *)
Fixpoint _log_rawlines (wrapper : string -> list string) (logfunc : Level)
         (prefix : string) (rawlines : list string) (firstline : bool)
  : M unit :=
  match rawlines with
  | [] => ret tt
  | rawline :: rest =>
      firstline' <- _log_lines logfunc prefix (wrapper rawline) firstline ;;
      _log_rawlines wrapper logfunc prefix rest firstline'
  end.

(** [ErrorHandler._log(msg, logfunc, prefix)] *)
Definition _log (msg : string) (logfunc : Level) (prefix : string) : M unit :=
  h <- get_handler ;;
  _log_rawlines (_wrapper h) logfunc prefix (Py.splitlines msg) true.

(** [ErrorHandler.error(msg)] *)
Definition error (msg : string) : M unit :=
  h <- get_handler ;;
  set_handler (mkErrorHandler (errors h + 1) (warnings h) (_wrapper h)
                 (errortypes h)) ;;
  _log msg ERROR "ERROR: ".

(** [ErrorHandler.warn(msg)] *)
Definition warn (msg : string) : M unit :=
  h <- get_handler ;;
  set_handler (mkErrorHandler (errors h) (warnings h + 1) (_wrapper h)
                 (errortypes h)) ;;
  _log msg WARNING "WARNING: ".

(** [ErrorHandler.debug(msg)] *)
Definition debug (msg : string) : M unit :=
  _log msg DEBUG "".

(** Calling a stored bound method. *)
Definition call_handler (f : Handler) (msg : string) : M unit :=
  match f with
  | h_error => error msg
  | h_warn => warn msg
  | h_debug => debug msg
  end.

(** [ErrorHandler.dispatch(err, msg)] *)
Definition dispatch (err msg : string) : M unit :=
  h <- get_handler ;;
  match errortypes_get err (errortypes h) with
  | Some f =>
      call_handler f msg ;;
      logger_call DEBUG ("    (" ++ err ++ ")")
  | None =>
      error msg ;;
      logger_call WARNING ("Unknown error " ++ err)
  end.

(** The wrapper chosen by [ErrorHandler.__init__].  [textwrap_wrap w]
    stands for [textwrap.TextWrapper(initial_indent="  ",
    subsequent_indent="  ", width=w).wrap] of the Python standard
    library, and [termsize] for the result of [get_termsize()]. *)
Definition choose_wrapper (textwrap_wrap : Z -> string -> list string)
           (termsize : option (Z * Z)) : string -> list string :=
  match termsize with
  | Some (width, _) =>
      if 0 <? width then textwrap_wrap width else fun s => [s]
  | None => fun s => [s]
  end.

(** [ErrorHandler.__init__(errors)]: the new object replaces the
    handler of the process, then the initial dict is registered. *)
Definition ErrorHandler_init (textwrap_wrap : Z -> string -> list string)
           (termsize : option (Z * Z))
           (errs : option (list (string * string))) : M unit :=
  set_handler (mkErrorHandler 0 0 (choose_wrapper textwrap_wrap termsize) []) ;;
  match errs with
  | Some items => RegisterErrors items
  | None => ret tt
  end.

(* ================================================================== *)
(** ** class Plugin and its two specializations *)
(* ================================================================== *)

(** [Plugin.HandlesFile(fname)], with [repository] the value of
    [Bcfg2.Options.setup.repository] and [files] the attribute
    [self.files] ([None] when no file list was given). *)
Definition HandlesFile (repository cwd : string) (files : option (list string))
           (fname : string) : bool :=
  match files with
  | None => true
  | Some fs =>
      (Py.mem fname fs
       || Py.mem (posixpath.join repository fname) fs
       || Py.mem (posixpath.abspath cwd fname) fs
       || Py.mem (posixpath.abspath cwd (posixpath.join repository fname)) fs)%bool
  end.

(** [Plugin.LintError(err, msg)] *)
Definition LintError (err msg : string) : M unit := dispatch err msg.

(** [Plugin.__init__(errorhandler, files)] with the shared handler;
    [ServerPlugin.__init__] calls it and then only stores attributes. *)
Definition Plugin_init (p : PluginClass) : M unit :=
  observe (EvConstruct p) ;;
  RegisterErrors (Errors p).

(** A call of [Run] on an instance. *)
Definition Plugin_Run (p : PluginClass) (files : option (list string)) : M unit :=
  observe (EvRun p) ;;
  for_each (fst (Run p files)) (fun c => LintError (fst c) (snd c)) ;;
  match snd (Run p files) with
  | Returns => ret tt
  | Raises e => raise e
  end.

(* ================================================================== *)
(** ** class CLI *)
(* ================================================================== *)

(** What the runner takes from outside this module.  [core_start]
    is what [Bcfg2.Server.Core.Core()], [load_plugins()] and
    [block_for_fam_events()] do when the server phase calls them:
    [None] when the three return, [Some e] when one of them raises
    [e]. *)
Record Env : Type := mkEnv {
  textwrap_wrap : Z -> string -> list string;  (* TextWrapper(...).wrap *)
  termsize : option (Z * Z);                   (* get_termsize() *)
  stdin_lines : list string;                   (* sys.stdin.readlines() *)
  core_start : option exn                      (* starting the server core *)
}.

(** The parsed options, [Bcfg2.Options.setup].  [lint_plugins] is the
    list once the lint plugins of the loaded server plugins have been
    appended. *)
Record Setup : Type := mkSetup {
  list_errors : bool;
  stdin : bool;
  verbose : bool;
  lint_errors : option (list (string * string));
  lint_plugins : list PluginClass
}.

(** The attributes of a [CLI] object; [self.errorhandler] is the shared
    handler of [World].  [core] is no attribute: it is the behaviour of
    the server core this object meets when it starts one ([core_start]
    of the environment it was built in). *)
Record CLI : Type := mkCLI {
  files : option (list string);
  serverlessplugins : list PluginClass;
  serverplugins : list PluginClass;
  core : option exn
}.

(** [CLI.get_errorhandler()] *)
Definition get_errorhandler (env : Env) (setup : Setup) : M unit :=
  ErrorHandler_init (textwrap_wrap env) (termsize env) (lint_errors setup).

(** The second half of [CLI.__init__()] (from the debug line on), once
    the lint plugins of the server plugins are loaded and with the
    terminal size [get_termsize()] returned.  The whole constructor,
    which can raise, is [CLI_new] below. *)
Definition CLI_init (env : Env) (setup : Setup) : M CLI :=
  logger_call DEBUG ("Running lint with plugins: " ++
                     Py.fmt_list (map __name__ (lint_plugins setup))) ;;
  get_errorhandler env setup ;;
  ret (mkCLI (if stdin setup then Some (map Py.strip (stdin_lines env)) else None)
             (filter (fun p => negb (is_ServerPlugin p)) (lint_plugins setup))
             (filter is_ServerPlugin (lint_plugins setup))
             (core_start env)).

(** The body both plugin loops share: log the name, instantiate the
    class, call [Run]. *)
Definition run_one (cli : CLI) (plugin : PluginClass) : M unit :=
  logger_call DEBUG ("  Running " ++ __name__ plugin) ;;
  Plugin_init plugin ;;
  Plugin_Run plugin (files cli).

(** [CLI.run_serverless_plugins()] *)
Definition run_serverless_plugins (cli : CLI) : M unit :=
  logger_call DEBUG ("Running serverless plugins: " ++
                     Py.fmt_list (map __name__ (serverlessplugins cli))) ;;
  for_each (serverlessplugins cli) (run_one cli).

(** [CLI.run_server_plugins()].  Building and starting the core stands
    before the [try]: when it raises, the exception leaves the method,
    no plugin is built and nothing is shut down.  A core that started
    and its shutdown are observation points. *)
Definition run_server_plugins (cli : CLI) : M unit :=
  match core cli with
  | Some e => raise e
  | None =>
      observe EvCoreStart ;;
      try_finally
        (logger_call DEBUG ("Running server plugins: " ++
                            Py.fmt_list (map __name__ (serverplugins cli))) ;;
         for_each (serverplugins cli) (run_one cli))
        (observe EvCoreShutdown)
  end.

Definition is_empty {A} (xs : list A) : bool :=
  match xs with
  | [] => true
  | _ => false
  end.

(** [CLI.run()]; the value is the exit code. *)
Definition run (setup : Setup) (cli : CLI) : M Z :=
  if list_errors setup then
    for_each (serverplugins cli ++ serverlessplugins cli)
             (fun plugin => RegisterErrors (Errors plugin)) ;;
    print (Py.ljust 35 "Error name" ++ " " ++ Py.ljust 35 "Handler") ;;
    h <- get_handler ;;
    for_each (errortypes h) (fun item =>
      print (Py.ljust 35 (fst item) ++ " " ++
             Py.ljust 35 (Handler_name (snd item)))) ;;
    ret 0
  else if (is_empty (serverplugins cli) && is_empty (serverlessplugins cli))%bool then
    logger_call ERROR "No lint plugins loaded!" ;;
    ret 1
  else
    run_serverless_plugins cli ;;
    (if is_empty (serverplugins cli) then ret tt
     else
       h <- get_handler ;;
       if Py.truthy (errors h) then
         print "Serverless plugins encountered errors, skipping server plugins"
       else
         run_server_plugins cli) ;;
    h <- get_handler ;;
    (if (Py.truthy (errors h) || Py.truthy (warnings h) || verbose setup)%bool then
       print (Py.fmt_d (errors h) ++ " errors") ;;
       print (Py.fmt_d (warnings h) ++ " warnings")
     else ret tt) ;;
    if Py.truthy (errors h) then ret 2
    else if Py.truthy (warnings h) then ret 3
    else ret 0.

(** The state of the process before [CLI()] is called: nothing logged,
    nothing printed; the handler slot is overwritten by
    [ErrorHandler.__init__]. *)
Definition boot : World :=
  mkWorld (mkErrorHandler 0 0 (fun s => [s]) []) [] [] [].

(** One run of the command, [CLI().run()], from the second half of
    the constructor on. *)
Definition bcfg2_lint (env : Env) (setup : Setup) : result Z * World :=
  (cli <- CLI_init env setup ;; run setup cli) boot.

(* ================================================================== *)
(** ** Vocabulary of the statements *)
(* ================================================================== *)

(** The handler a kind resolves to: the registered one, or [error] for
    a kind that was never registered. *)
Definition resolve (d : list (string * Handler)) (kind : string) : Handler :=
  match errortypes_get kind d with
  | Some f => f
  | None => h_error
  end.

Definition Handler_eqb (f g : Handler) : bool :=
  match f, g with
  | h_error, h_error | h_warn, h_warn | h_debug, h_debug => true
  | _, _ => false
  end.

(** Number of events of a sequence that resolve to the handler [f]. *)
Definition count_resolved (d : list (string * Handler)) (f : Handler)
           (evs : list (string * string)) : Z :=
  Z.of_nat (length (filter (fun ev => Handler_eqb (resolve d (fst ev)) f) evs)).

(** A sequence of [dispatch] calls. *)
Definition dispatch_all (evs : list (string * string)) : M unit :=
  for_each evs (fun ev => dispatch (fst ev) (snd ev)).

(** The lines [_log] hands to the logger: the wrapped lines of all raw
    lines, the first of them stripped on the left and prefixed. *)
Definition mark_first (prefix : string) (lines : list string) : list string :=
  match lines with
  | [] => []
  | l :: ls => (prefix ++ Py.lstrip l) :: ls
  end.

Definition rendered (wrapper : string -> list string) (prefix msg : string)
  : list string :=
  mark_first prefix (concat (map wrapper (Py.splitlines msg))).

(** The counters after a call of the handler [f]. *)
Definition count (f : Handler) (h : ErrorHandler) : ErrorHandler :=
  match f with
  | h_error => mkErrorHandler (errors h + 1) (warnings h) (_wrapper h) (errortypes h)
  | h_warn => mkErrorHandler (errors h) (warnings h + 1) (_wrapper h) (errortypes h)
  | h_debug => h
  end.

Definition Handler_level (f : Handler) : Level :=
  match f with
  | h_error => ERROR
  | h_warn => WARNING
  | h_debug => DEBUG
  end.

Definition Handler_prefix (f : Handler) : string :=
  match f with
  | h_error => "ERROR: "
  | h_warn => "WARNING: "
  | h_debug => ""
  end.

(** The operations of an [ErrorHandler]. *)
Inductive Op : Type :=
| OpRegisterErrors (errs : list (string * string))
| OpDispatch (err msg : string)
| OpError (msg : string)
| OpWarn (msg : string)
| OpDebug (msg : string).

Definition do_op (o : Op) : M unit :=
  match o with
  | OpRegisterErrors errs => RegisterErrors errs
  | OpDispatch err msg => dispatch err msg
  | OpError msg => error msg
  | OpWarn msg => warn msg
  | OpDebug msg => debug msg
  end.

(** No line boundary inside a string: [splitlines] keeps it whole. *)
Fixpoint one_line (s : string) : bool :=
  match s with
  | EmptyString => true
  | String c s' => (negb (Py.is_linebreak c) && one_line s')%bool
  end.

(** The string starts with white space. *)
Definition starts_with_space (s : string) : bool :=
  match s with
  | EmptyString => false
  | String c _ => Py.is_space c
  end.

Definition NL : string := String Py.LF EmptyString.

(** The registry after [RegisterErrors]: a kind that is present is
    left alone, a new kind is appended with the handler of its action. *)
Definition register_item (d : list (string * Handler)) (item : string * string)
  : list (string * Handler) :=
  match errortypes_get (fst item) d with
  | Some _ => d
  | None => d ++ [(fst item, handler_of_action (snd item))]
  end.

Definition register_all (d : list (string * Handler))
           (errs : list (string * string)) : list (string * Handler) :=
  fold_left register_item errs d.

Definition with_errortypes (d : list (string * Handler)) (w : World) : World :=
  mkWorld (mkErrorHandler (errors (handler w)) (warnings (handler w))
                          (_wrapper (handler w)) d)
          (logged w) (stdout w) (events w).

(** The handler after a sequence of dispatches: each event counts for
    the handler its kind resolves to at that moment. *)
Definition tally (h : ErrorHandler) (evs : list (string * string)) : ErrorHandler :=
  fold_left (fun h ev => count (resolve (errortypes h) (fst ev)) h) evs h.

(** The handler after one plugin: its kinds are registered, then its
    findings are tallied.  How [Run] ends plays no part. *)
Definition after_plugin (fs : option (list string)) (h : ErrorHandler)
           (p : PluginClass) : ErrorHandler :=
  tally (mkErrorHandler (errors h) (warnings h) (_wrapper h)
                        (register_all (errortypes h) (Errors p)))
        (fst (Run p fs)).

Definition after_plugins (fs : option (list string)) (h : ErrorHandler)
           (ps : list PluginClass) : ErrorHandler :=
  fold_left (after_plugin fs) ps h.

(** The observation points a list of plugins leaves when each of them
    is instantiated and run. *)
Definition plugin_events (ps : list PluginClass) : list Event :=
  flat_map (fun p => [EvConstruct p; EvRun p]) ps.

Definition outcome_result (o : Outcome) : result unit :=
  match o with
  | Returns => Normal tt
  | Raises e => Raised e
  end.

(** The two phases of a run. *)
Inductive Phase : Type :=
| Serverless
| Server.

Definition phase_plugins (ph : Phase) (cli : CLI) : list PluginClass :=
  match ph with
  | Serverless => serverlessplugins cli
  | Server => serverplugins cli
  end.

Definition run_phase (ph : Phase) (cli : CLI) : M unit :=
  match ph with
  | Serverless => run_serverless_plugins cli
  | Server => run_server_plugins cli
  end.

Definition phase_opens (ph : Phase) : list Event :=
  match ph with
  | Serverless => []
  | Server => [EvCoreStart]
  end.

Definition phase_closes (ph : Phase) : list Event :=
  match ph with
  | Serverless => []
  | Server => [EvCoreShutdown]
  end.

(** [run], started in [w0], enters the loop of the phase in the world
    [w]: the serverless phase at once, the server phase after a
    serverless phase that returned and left no error, with a core that
    starts. *)
Definition enters (ph : Phase) (cli : CLI) (w0 w : World) : Prop :=
  match ph with
  | Serverless => w = w0
  | Server =>
      run_serverless_plugins cli w0 = (Normal tt, w) /\
      errors (handler w) = 0 /\
      core cli = None
  end.

(** The core is no obstacle to the loop of the phase. *)
Definition core_ready (ph : Phase) (cli : CLI) : Prop :=
  match ph with
  | Serverless => True
  | Server => core cli = None
  end.

(** The plugins a run goes through when nothing raises: the serverless
    list, then the server list when the serverless findings leave the
    error count at zero. *)
Definition scheduled (cli : CLI) (h : ErrorHandler) : list PluginClass :=
  serverlessplugins cli ++
  (if errors (after_plugins (files cli) h (serverlessplugins cli)) =? 0
   then serverplugins cli else []).

(** The exit code the priority order gives to the final counters. *)
Definition exit_code_of (h : ErrorHandler) : Z :=
  if 0 <? errors h then 2
  else if 0 <? warnings h then 3
  else 0.

(** The exit code as [run] computes it, by the truth value of the
    counters. *)
Definition status (h : ErrorHandler) : Z :=
  if Py.truthy (errors h) then 2
  else if Py.truthy (warnings h) then 3
  else 0.

(** The file list [CLI.__init__] stores. *)
Definition cli_files (env : Env) (setup : Setup) : option (list string) :=
  if stdin setup then Some (map Py.strip (stdin_lines env)) else None.

(** The event belongs to the server phase. *)
Definition touches_server (ev : Event) : bool :=
  match ev with
  | EvConstruct p | EvRun p => is_ServerPlugin p
  | EvCoreStart | EvCoreShutdown => true
  end.

(** The four forms [HandlesFile] derives from a path. *)
Definition four_forms (repository cwd p : string) : list string :=
  [p;
   posixpath.join repository p;
   posixpath.abspath cwd p;
   posixpath.abspath cwd (posixpath.join repository p)].

(** Two strings name one file: both are among the four forms of some
    path. *)
Definition same_file (repository cwd p e : string) : Prop :=
  exists base,
    In p (four_forms repository cwd base) /\
    In e (four_forms repository cwd base).

Fixpoint all_space (s : string) : bool :=
  match s with
  | EmptyString => true
  | String c s' => (Py.is_space c && all_space s')%bool
  end.

(** A wrapper for the examples: words separated by white space are
    packed greedily into lines of at most [width] characters, each line
    indented by two spaces.  The statements below hold for every
    wrapper; this one only provides concrete runs at a narrow width. *)
Module Sample.

Fixpoint words_from (cur s : string) : list string :=
  match s with
  | EmptyString =>
      match cur with
      | EmptyString => []
      | _ => [cur]
      end
  | String c rest =>
      if Py.is_space c then
        match cur with
        | EmptyString => words_from EmptyString rest
        | _ => cur :: words_from EmptyString rest
        end
      else words_from (cur ++ String c EmptyString) rest
  end.

Fixpoint fill (room : nat) (cur : string) (words : list string) : list string :=
  match words with
  | [] =>
      match cur with
      | EmptyString => []
      | _ => [cur]
      end
  | wd :: rest =>
      match cur with
      | EmptyString => fill room wd rest
      | _ =>
          if Nat.leb (String.length cur + 1 + String.length wd) room
          then fill room (cur ++ " " ++ wd) rest
          else cur :: fill room wd rest
      end
  end.

Definition greedy_wrap (width : Z) (s : string) : list string :=
  map (append "  ")
      (fill (Z.to_nat width - 2) EmptyString (words_from EmptyString s)).

(** A terminal twenty columns wide, no lines on standard input. *)
Definition narrow : Env := mkEnv greedy_wrap (Some (20, 24)) [] None.

(** The same without a terminal: messages pass through. *)
Definition piped : Env := mkEnv greedy_wrap None [] None.

(** A serverless check that reports one duplicate group. *)
Definition Groups : PluginClass :=
  mkPluginClass "Groups" false [("dup-group", "error")]
    (fun _ => ([("dup-group", "group web is defined twice")], Returns)).

(** A serverless check that reports one stale path as a warning. *)
Definition Paths : PluginClass :=
  mkPluginClass "Paths" false [("stale-path", "warning")]
    (fun _ => ([("stale-path", "path /etc/old is stale")], Returns)).

(** A serverless check that declares nothing and finds nothing. *)
Definition Quiet : PluginClass :=
  mkPluginClass "Quiet" false [] (fun _ => ([], Returns)).

(** A serverless check that fails on input it cannot read. *)
Definition Broken : PluginClass :=
  mkPluginClass "Broken" false [("bad-xml", "error")]
    (fun _ => ([], Raises (Exception "XMLSyntaxError"))).

(** A check that needs the server. *)
Definition Metadata : PluginClass :=
  mkPluginClass "Metadata" true [("stale-path", "warning")]
    (fun _ => ([("stale-path", "client web01 is stale")], Returns)).

Definition setup_of (ps : list PluginClass) : Setup :=
  mkSetup false false false None ps.

Definition cli_of (serverless server : list PluginClass) : CLI :=
  mkCLI None serverless server None.

End Sample.

From Stdlib Require Import Permutation.

(* ================================================================== *)
(** ** The rest of the module: terminal size, loading of lint plugins *)
(* ================================================================== *)

(** What [get_termsize] asks of the process and of the operating
    system. *)
Record Terminal : Type := mkTerminal {
  stdout_isatty : bool;                  (* sys.stdout.isatty() *)
  tiocgwinsz : Z -> option (Z * Z);      (* the ioctl on a descriptor, unpacked
                                            as (rows, columns); None when it raises *)
  open_ctermid : option Z;               (* os.open(os.ctermid(), os.O_RDONLY);
                                            None when it raises *)
  environ : string -> option string;     (* os.environ *)
  int_of_str : string -> option Z        (* int(s); None for ValueError *)
}.

(** [_ioctl_GWINSZ(fd)]: any exception of the ioctl becomes [None]. *)
Definition _ioctl_GWINSZ (t : Terminal) (fd : Z) : option (Z * Z) :=
  tiocgwinsz t fd.

(** [a or b] on values that are [None] or a pair. *)
Definition py_or {A} (a b : option A) : option A :=
  match a with
  | Some _ => a
  | None => b
  end.

(** [get_termsize()].  The only exception that can leave it is the
    [ValueError] of [int] on an environment variable. *)
Definition get_termsize (t : Terminal) : result (option (Z * Z)) :=
  if negb (stdout_isatty t) then Normal None
  else
    let dims := py_or (py_or (_ioctl_GWINSZ t 0) (_ioctl_GWINSZ t 1))
                      (_ioctl_GWINSZ t 2) in
    let dims := match dims with
                | Some _ => dims
                | None =>
                    match open_ctermid t with
                    | Some fd => _ioctl_GWINSZ t fd
                    | None => None
                    end
                end in
    match dims with
    | Some (rows, columns) => Normal (Some (columns, rows))
    | None =>
        match environ t "LINES", environ t "COLUMNS" with
        | Some lines, Some columns =>
            match int_of_str t columns with
            | None => Raised (Exception "ValueError")
            | Some width =>
                match int_of_str t lines with
                | None => Raised (Exception "ValueError")
                | Some height => Normal (Some (width, height))
                end
            end
        | _, _ => Normal None
        end
    end.

(** [ErrorHandler(errors)] with the terminal probed by
    [get_termsize]: an exception of the probe leaves the constructor
    and no handler is installed. *)
Definition ErrorHandler_new (wrap : Z -> string -> list string) (t : Terminal)
           (errs : option (list (string * string))) : M unit :=
  match get_termsize t with
  | Normal ts => ErrorHandler_init wrap ts errs
  | Raised e => raise e
  end.

(** What importing [Bcfg2.Server.Lint.<name>] and taking the class of
    that name from it gives.  Only [ImportError] and [AttributeError]
    are caught by the loop. *)
Inductive ImportResult : Type :=
| Imported (cls : PluginClass)
| ImportError
| AttributeError (info : string)
| OtherException (e : exn).

(** The first loop of [CLI.__init__]: the lint plugin of every loaded
    server plugin is appended to [lint_plugins]. *)
Fixpoint autoload (import_lint : string -> ImportResult) (plugins : list string)
         (lint_plugins : list PluginClass) : M (list PluginClass) :=
  match plugins with
  | [] => ret lint_plugins
  | name :: rest =>
      match import_lint name with
      | Imported cls =>
          logger_call DEBUG ("Automatically adding lint plugin " ++ name) ;;
          autoload import_lint rest (lint_plugins ++ [cls])
      | ImportError =>
          logger_call DEBUG ("No lint plugin for " ++ name) ;;
          autoload import_lint rest lint_plugins
      | AttributeError info =>
          logger_call ERROR ("Failed to load plugin " ++ name ++ ": " ++ info) ;;
          autoload import_lint rest lint_plugins
      | OtherException e => raise e
      end
  end.

(** What the whole constructor takes from outside this module. *)
Record System : Type := mkSystem {
  sys_textwrap : Z -> string -> list string;   (* TextWrapper(...).wrap *)
  sys_terminal : Terminal;                     (* what get_termsize() probes *)
  sys_stdin : list string;                     (* sys.stdin.readlines() *)
  sys_core : option exn;                       (* starting the server core *)
  sys_import : string -> ImportResult          (* importing a lint plugin *)
}.

(** [CLI.__init__()] as a whole, once the options are parsed:
    [plugins] are the names of the loaded server plugins
    ([Bcfg2.Options.setup.plugins]).  The lint plugins of the server
    plugins are loaded, the plugin list is logged, the handler is
    built on the probed terminal, and the plugins are split by kind.
    An exception of an import other than the two that are caught, and
    the [ValueError] of [get_termsize], leave the constructor. *)
Definition CLI_new (sys : System) (plugins : list string) (setup : Setup)
  : M CLI :=
  lint <- autoload (sys_import sys) plugins (lint_plugins setup) ;;
  logger_call DEBUG ("Running lint with plugins: " ++
                     Py.fmt_list (map __name__ lint)) ;;
  ErrorHandler_new (sys_textwrap sys) (sys_terminal sys) (lint_errors setup) ;;
  ret (mkCLI (if stdin setup then Some (map Py.strip (sys_stdin sys)) else None)
             (filter (fun p => negb (is_ServerPlugin p)) lint)
             (filter is_ServerPlugin lint)
             (sys_core sys)).

(** ** More vocabulary *)

(** The action a dict gives a kind: the first item with that key. *)
Fixpoint items_get (k : string) (items : list (string * string)) : option string :=
  match items with
  | [] => None
  | (k', a) :: rest => if String.eqb k k' then Some a else items_get k rest
  end.

(** The classes the imports yield, in the order of the names. *)
Fixpoint imported (import_lint : string -> ImportResult) (plugins : list string)
  : list PluginClass :=
  match plugins with
  | [] => []
  | name :: rest =>
      match import_lint name with
      | Imported cls => cls :: imported import_lint rest
      | _ => imported import_lint rest
      end
  end.

(** The events of a server phase that ran the plugins [done]. *)
Definition server_events (done : list PluginClass) : list Event :=
  [EvCoreStart] ++ plugin_events done ++ [EvCoreShutdown].

(** The line of the [--list-errors] table for one registry entry. *)
Definition table_row (item : string * Handler) : string :=
  Py.ljust 35 (fst item) ++ " " ++ Py.ljust 35 (Handler_name (snd item)).

(** The two lines of the summary. *)
Definition summary (h : ErrorHandler) : list string :=
  [Py.fmt_d (errors h) ++ " errors"; Py.fmt_d (warnings h) ++ " warnings"].

(** The first line of the [--list-errors] table. *)
Definition table_header : string :=
  Py.ljust 35 "Error name" ++ " " ++ Py.ljust 35 "Handler".

(** The notice [run] prints when it skips the server phase. *)
Definition skip_notice : string :=
  "Serverless plugins encountered errors, skipping server plugins".

(** The end of [run] in the world [w]: the summary is printed when a
    counter is not zero or [verbose] is set, and the exit code follows
    from the counters. *)
Definition report (setup : Setup) (w : World) : result Z * World :=
  (Normal (status (handler w)),
   if (Py.truthy (errors (handler w)) || Py.truthy (warnings (handler w))
       || verbose setup)%bool
   then mkWorld (handler w) (logged w)
                (stdout w ++ summary (handler w))%list (events w)
   else w).

(** The world after one more line on standard output. *)
Definition printed (line : string) (w : World) : World :=
  mkWorld (handler w) (logged w) (stdout w ++ [line])%list (events w).

Module Sample2.

(** [int] on strings of decimal digits, enough for the examples. *)
Fixpoint digits (acc : Z) (s : string) : option Z :=
  match s with
  | EmptyString => Some acc
  | String c rest =>
      let n := Z.of_nat (nat_of_ascii c) in
      if ((48 <=? n) && (n <=? 57))%bool then digits (10 * acc + (n - 48)) rest
      else None
  end.

Definition int_of_digits (s : string) : option Z :=
  match s with
  | EmptyString => None
  | _ => digits 0 s
  end.

(** Standard output is a pipe. *)
Definition pipe : Terminal :=
  mkTerminal false (fun _ => Some (24, 80)) (Some 3)
             (fun _ => Some "80"%string) int_of_digits.

(** Only the second descriptor answers the ioctl. *)
Definition xterm : Terminal :=
  mkTerminal true (fun fd => if fd =? 1 then Some (24, 80) else None) None
             (fun _ => None) int_of_digits.

(** No descriptor answers; the size comes from the environment. *)
Definition by_environ (lines columns : string) : Terminal :=
  mkTerminal true (fun _ => None) None
             (fun name => if String.eqb name "LINES" then Some lines
                          else if String.eqb name "COLUMNS" then Some columns
                          else None)
             int_of_digits.

(** Server plugins [Metadata] and [Rules] have a lint plugin, [Probes]
    has none, and the module of [Cfg] lacks the class. *)
Definition Rules : PluginClass :=
  mkPluginClass "Rules" true [("stale-path", "error")] (fun _ => ([], Returns)).

Definition import_lint (name : string) : ImportResult :=
  if String.eqb name "Metadata" then Imported Sample.Metadata
  else if String.eqb name "Rules" then Imported Rules
  else if String.eqb name "Cfg" then AttributeError "no attribute Cfg"
  else ImportError.

(** A process whose terminal size comes from the environment. *)
Definition system (lines columns : string) : System :=
  mkSystem Sample.greedy_wrap (by_environ lines columns) [] None import_lint.

End Sample2.

(* ================================================================== *)
(** ** [Server/Admin/Minestruct.py]: the scan of the arguments *)
(* ================================================================== *)

Module Minestruct.

(** The local variables of [Minestruct.__call__] that the loop over
    [args] sets. *)
Record Scan : Type := mkScan {
  write_to_file : bool;
  file_arg : bool;
  output_file : option string;
  client : option string;
  groups_arg : bool;
  groups : list string
}.

(** Their values before the loop. *)
Definition start : Scan := mkScan false false None None false [].

(** The body of [for arg in args]. *)
Definition step (s : Scan) (arg : string) : Scan :=
  if String.eqb arg "-f" then
    mkScan (write_to_file s) true (output_file s) (client s) false (groups s)
  else if String.eqb arg "-g" then
    mkScan (write_to_file s) false (output_file s) (client s) true (groups s)
  else if file_arg s then
    mkScan true false (Some arg) (client s) (groups_arg s) (groups s)
  else if groups_arg s then
    mkScan (write_to_file s) (file_arg s) (output_file s) (client s)
           (groups_arg s) (groups s ++ [arg])
  else
    mkScan (write_to_file s) (file_arg s) (output_file s) (Some arg)
           (groups_arg s) (groups s).

(** The whole loop, from the state [s]. *)
Definition scan_from (s : Scan) (args : list string) : Scan :=
  fold_left step args s.

Definition scan (args : list string) : Scan := scan_from start args.

(** The argument is one of the two flags. *)
Definition is_flag (arg : string) : bool :=
  (String.eqb arg "-f" || String.eqb arg "-g")%bool.

End Minestruct.

(* ================================================================== *)
(** ** The handler: rendering, counting, registering *)
(* ================================================================== *)

Local Open Scope list_scope.

Lemma _log_lines_spec lvl prefix lines firstline w :
  _log_lines lvl prefix lines firstline w =
  (Normal (firstline && is_empty lines)%bool,
   mkWorld (handler w)
           (logged w ++ map (pair lvl)
                            (if firstline then mark_first prefix lines else lines))
           (stdout w) (events w)).
Proof.
  revert firstline w.
  induction lines as [|l ls IH]; intros firstline w.
  - destruct w, firstline; cbn; now rewrite app_nil_r.
  - destruct firstline; cbn -[append];
      unfold bind, logger_call; rewrite IH; cbn -[append];
      now rewrite <- app_assoc.
Qed.

Lemma _log_rawlines_spec wrapper lvl prefix raws firstline w :
  _log_rawlines wrapper lvl prefix raws firstline w =
  (Normal tt,
   mkWorld (handler w)
           (logged w ++ map (pair lvl)
              (if firstline then mark_first prefix (concat (map wrapper raws))
               else concat (map wrapper raws)))
           (stdout w) (events w)).
Proof.
  revert firstline w.
  induction raws as [|raw rest IH]; intros firstline w.
  - destruct w, firstline; cbn; now rewrite app_nil_r.
  - cbn [_log_rawlines]. unfold bind at 1.
    rewrite _log_lines_spec, IH. cbn [handler logged stdout events map concat].
    rewrite <- app_assoc, <- map_app.
    destruct firstline; cbn [andb]; [|reflexivity].
    destruct (wrapper raw) as [|l ls]; reflexivity.
Qed.

(** [_log] never raises and only appends to the log stream. *)
Lemma _log_spec msg lvl prefix w :
  _log msg lvl prefix w =
  (Normal tt,
   mkWorld (handler w)
           (logged w ++ map (pair lvl)
                            (rendered (_wrapper (handler w)) prefix msg))
           (stdout w) (events w)).
Proof.
  unfold _log, bind, get_handler. now rewrite _log_rawlines_spec.
Qed.

Lemma call_handler_spec f msg w :
  call_handler f msg w =
  (Normal tt,
   mkWorld (count f (handler w))
           (logged w ++ map (pair (Handler_level f))
              (rendered (_wrapper (handler w)) (Handler_prefix f) msg))
           (stdout w) (events w)).
Proof.
  destruct f; cbn [call_handler count Handler_level Handler_prefix].
  - unfold error, bind, get_handler, set_handler. now rewrite _log_spec.
  - unfold warn, bind, get_handler, set_handler. now rewrite _log_spec.
  - unfold debug. now rewrite _log_spec.
Qed.

Lemma error_spec msg w :
  error msg w =
  (Normal tt,
   mkWorld (count h_error (handler w))
           (logged w ++ map (pair ERROR)
              (rendered (_wrapper (handler w)) "ERROR: " msg))
           (stdout w) (events w)).
Proof. exact (call_handler_spec h_error msg w). Qed.

(** The effect of one [dispatch], for a registered kind and for an
    unknown one. *)
Lemma dispatch_spec err msg w :
  dispatch err msg w =
  (Normal tt,
   let f := resolve (errortypes (handler w)) err in
   mkWorld (count f (handler w))
           (logged w
            ++ map (pair (Handler_level f))
                   (rendered (_wrapper (handler w)) (Handler_prefix f) msg)
            ++ [match errortypes_get err (errortypes (handler w)) with
                | Some _ => (DEBUG, ("    (" ++ err ++ ")")%string)
                | None => (WARNING, ("Unknown error " ++ err)%string)
                end])
           (stdout w) (events w)).
Proof.
  unfold dispatch, resolve, bind at 1, get_handler.
  destruct (errortypes_get err (errortypes (handler w))) as [f|].
  - unfold bind. rewrite call_handler_spec. unfold logger_call.
    cbn [handler logged stdout events]. now rewrite <- app_assoc.
  - unfold bind. rewrite error_spec. unfold logger_call.
    cbn [handler logged stdout events Handler_level Handler_prefix].
    now rewrite <- app_assoc.
Qed.

Lemma count_errortypes f h : errortypes (count f h) = errortypes h.
Proof. now destruct f. Qed.

Lemma count_wrapper f h : _wrapper (count f h) = _wrapper h.
Proof. now destruct f. Qed.

Lemma count_errors f h :
  errors (count f h) = errors h + (if Handler_eqb f h_error then 1 else 0).
Proof. destruct f; cbn; lia. Qed.

Lemma count_warnings f h :
  warnings (count f h) = warnings h + (if Handler_eqb f h_warn then 1 else 0).
Proof. destruct f; cbn; lia. Qed.

Lemma with_errortypes_same w : with_errortypes (errortypes (handler w)) w = w.
Proof. now destruct w as [[? ? ? ?] ? ? ?]. Qed.

Lemma register_one_spec item w :
  register_one item w =
  (Normal tt, with_errortypes (register_item (errortypes (handler w)) item) w).
Proof.
  destruct item as [err action].
  unfold register_one, register_item, bind, get_handler. cbn [fst snd].
  destruct (errortypes_get err (errortypes (handler w))).
  - now rewrite with_errortypes_same.
  - reflexivity.
Qed.

(** [RegisterErrors] never raises and changes the registry only. *)
Lemma RegisterErrors_spec errs w :
  RegisterErrors errs w =
  (Normal tt, with_errortypes (register_all (errortypes (handler w)) errs) w).
Proof.
  unfold RegisterErrors, register_all. revert w.
  induction errs as [|item rest IH]; intros w; cbn [for_each fold_left].
  - now rewrite with_errortypes_same.
  - unfold bind. rewrite register_one_spec, IH. reflexivity.
Qed.

Lemma errortypes_get_app k d d' :
  errortypes_get k (d ++ d') =
  match errortypes_get k d with
  | Some f => Some f
  | None => errortypes_get k d'
  end.
Proof.
  induction d as [|[k' f'] d IH]; cbn; [reflexivity|].
  now destruct (String.eqb k k').
Qed.

Lemma register_item_keeps k f d item :
  errortypes_get k d = Some f ->
  errortypes_get k (register_item d item) = Some f.
Proof.
  intros H. unfold register_item.
  destruct (errortypes_get (fst item) d); [assumption|].
  now rewrite errortypes_get_app, H.
Qed.

(** A registered kind keeps its handler through any registration. *)
Lemma register_all_keeps k f errs d :
  errortypes_get k d = Some f ->
  errortypes_get k (register_all d errs) = Some f.
Proof.
  unfold register_all. revert d.
  induction errs as [|item rest IH]; intros d H; cbn [fold_left].
  - assumption.
  - apply IH. now apply register_item_keeps.
Qed.

Lemma register_item_other k d item :
  fst item <> k ->
  errortypes_get k (register_item d item) = errortypes_get k d.
Proof.
  intros Hne. unfold register_item.
  destruct (errortypes_get (fst item) d); [reflexivity|].
  rewrite errortypes_get_app. cbn.
  destruct (errortypes_get k d); [reflexivity|].
  destruct (String.eqb_spec k (fst item)); [now subst|reflexivity].
Qed.

(** A new kind gets the handler of the action its dict gives it. *)
Lemma register_all_new k a errs d :
  errortypes_get k d = None ->
  In (k, a) errs ->
  NoDup (map fst errs) ->
  errortypes_get k (register_all d errs) = Some (handler_of_action a).
Proof.
  unfold register_all. revert d.
  induction errs as [|item rest IH]; intros d Hnone Hin Hnd; [easy|].
  cbn [fold_left]. inversion Hnd as [|? ? Hnot Hnd']; subst.
  destruct Hin as [->|Hin].
  - apply (register_all_keeps k). unfold register_item. cbn [fst snd].
    rewrite Hnone, errortypes_get_app, Hnone. cbn.
    now rewrite String.eqb_refl.
  - apply IH; [|assumption|assumption].
    rewrite register_item_other; [assumption|].
    intros Heq. apply Hnot. rewrite Heq.
    change k with (fst (k, a)). now apply in_map.
Qed.

(** Once a dict that names [k] is registered, [k] is in the registry. *)
Lemma register_all_registers k a errs d :
  In (k, a) errs ->
  errortypes_get k (register_all d errs) <> None.
Proof.
  revert d.
  induction errs as [|item rest IH]; intros d Hin; [easy|].
  change (register_all d (item :: rest))
    with (register_all (register_item d item) rest).
  destruct Hin as [->|Hin]; [|now apply IH].
  destruct (errortypes_get k (register_item d (k, a))) as [f|] eqn:E.
  - now rewrite (register_all_keeps k f).
  - exfalso. revert E. unfold register_item. cbn [fst snd].
    destruct (errortypes_get k d) as [f|] eqn:E'; [now rewrite E'|].
    rewrite errortypes_get_app, E'. cbn. now rewrite String.eqb_refl.
Qed.


(* ================================================================== *)
(** ** Sequences of handler operations *)
(* ================================================================== *)

Lemma tally_errortypes evs h : errortypes (tally h evs) = errortypes h.
Proof.
  unfold tally. revert h. induction evs as [|ev rest IH]; intros h; cbn.
  - reflexivity.
  - now rewrite IH, count_errortypes.
Qed.

Lemma tally_wrapper evs h : _wrapper (tally h evs) = _wrapper h.
Proof.
  unfold tally. revert h. induction evs as [|ev rest IH]; intros h; cbn.
  - reflexivity.
  - now rewrite IH, count_wrapper.
Qed.

Lemma tally_counters evs h :
  errors (tally h evs) = errors h + count_resolved (errortypes h) h_error evs /\
  warnings (tally h evs) = warnings h + count_resolved (errortypes h) h_warn evs.
Proof.
  unfold tally, count_resolved. revert h.
  induction evs as [|ev rest IH]; intros h; cbn [fold_left filter].
  - cbn. lia.
  - destruct (IH (count (resolve (errortypes h) (fst ev)) h)) as [He Hw].
    rewrite He, Hw, count_errortypes, count_errors, count_warnings.
    destruct (Handler_eqb _ h_error), (Handler_eqb _ h_warn); cbn [length]; lia.
Qed.

(** A sequence of dispatches never raises; it tallies the events and
    touches neither standard output nor the observation points. *)
Lemma dispatch_all_spec evs w :
  exists w',
    dispatch_all evs w = (Normal tt, w') /\
    handler w' = tally (handler w) evs /\
    stdout w' = stdout w /\ events w' = events w.
Proof.
  unfold dispatch_all, tally. revert w.
  induction evs as [|[err msg] rest IH]; intros w.
  - exists w. cbn. repeat split.
  - cbn [for_each fst snd fold_left]. unfold bind. rewrite dispatch_spec.
    cbv zeta.
    match goal with |- context [for_each rest _ ?w1] =>
      destruct (IH w1) as (w' & Hrun & Hh & Hs & Hev) end.
    exists w'. rewrite Hrun. cbn [handler stdout events] in *.
    repeat split; assumption.
Qed.

(** Every operation of the handler returns normally and leaves both
    counters at least as large as they were. *)
Lemma do_op_monotone o w :
  exists w',
    do_op o w = (Normal tt, w') /\
    errors (handler w) <= errors (handler w') /\
    warnings (handler w) <= warnings (handler w').
Proof.
  destruct o as [errs|err msg|msg|msg|msg]; cbn [do_op]; eexists.
  - rewrite RegisterErrors_spec. split; [reflexivity|]. cbn. lia.
  - rewrite dispatch_spec. split; [reflexivity|]. cbv zeta.
    cbn [handler]. rewrite count_errors, count_warnings.
    destruct (resolve _ _); cbn; lia.
  - rewrite error_spec. split; [reflexivity|]. cbn. lia.
  - change (warn msg w) with (call_handler h_warn msg w).
    rewrite call_handler_spec. split; [reflexivity|]. cbn. lia.
  - unfold debug. rewrite _log_spec. split; [reflexivity|]. cbn. lia.
Qed.

Lemma ops_monotone ops w :
  exists w',
    for_each ops do_op w = (Normal tt, w') /\
    errors (handler w) <= errors (handler w') /\
    warnings (handler w) <= warnings (handler w').
Proof.
  revert w. induction ops as [|o rest IH]; intros w.
  - exists w. cbn. repeat split; lia.
  - destruct (do_op_monotone o w) as (w1 & H1 & He1 & Hw1).
    destruct (IH w1) as (w2 & H2 & He2 & Hw2).
    exists w2. cbn [for_each]. unfold bind. rewrite H1, H2.
    repeat split; lia.
Qed.

(* ================================================================== *)
(** ** Claims on the registry and on dispatch *)
(* ================================================================== *)

(** C4.  Registration is idempotent per kind, the first caller wins:
    when a dict that gives kind [k] the action [a1] is registered and
    then a dict that gives [k] the action [a2], both calls return, the
    second leaves the handler of [k] as the first call left it, and
    when [k] was new before the first call that handler is the one of
    [a1].  The two actions may differ in any way. *)
Theorem RegisterErrors_first_wins
        (k a1 a2 : string) (d1 d2 : list (string * string)) (w : World) :
  In (k, a1) d1 -> NoDup (map fst d1) -> In (k, a2) d2 ->
  exists w1 w2,
    RegisterErrors d1 w = (Normal tt, w1) /\
    RegisterErrors d2 w1 = (Normal tt, w2) /\
    errortypes_get k (errortypes (handler w1)) <> None /\
    errortypes_get k (errortypes (handler w2)) =
      errortypes_get k (errortypes (handler w1)) /\
    (errortypes_get k (errortypes (handler w)) = None ->
     errortypes_get k (errortypes (handler w2)) = Some (handler_of_action a1)).
Proof.
  intros Hin1 Hnd Hin2.
  do 2 eexists. rewrite !RegisterErrors_spec.
  split; [reflexivity|]. split; [reflexivity|].
  cbn [with_errortypes handler errortypes].
  pose proof (register_all_registers k a1 d1 (errortypes (handler w)) Hin1) as Hreg.
  split; [assumption|].
  destruct (errortypes_get k (register_all (errortypes (handler w)) d1))
    as [f|] eqn:E; [|contradiction].
  split.
  - now apply register_all_keeps.
  - intros Hnew. rewrite (register_all_keeps k f); [|assumption].
    rewrite <- E. now apply register_all_new.
Qed.

Lemma RegisterErrors_first_wins_witness :
  exists w1 w2,
    RegisterErrors [("dup-group", "error"); ("stale-path", "warning")] boot
      = (Normal tt, w1) /\
    RegisterErrors [("dup-group", "warning")] w1 = (Normal tt, w2) /\
    errortypes_get "dup-group" (errortypes (handler w1)) <> None /\
    errortypes_get "dup-group" (errortypes (handler w2)) =
      errortypes_get "dup-group" (errortypes (handler w1)) /\
    (errortypes_get "dup-group" (errortypes (handler boot)) = None ->
     errortypes_get "dup-group" (errortypes (handler w2)) =
       Some (handler_of_action "error")).
Proof.
  apply (RegisterErrors_first_wins "dup-group" "error" "warning").
  - simpl. left. reflexivity.
  - simpl. repeat constructor; simpl; intuition discriminate.
  - simpl. left. reflexivity.
Defined.

(** C5, as the source has it.  A new kind registered with an action
    that contains neither ["warn"] nor ["err"] gets the [debug]
    handler: a later dispatch of it returns, changes neither counter
    and logs at debug level only. *)
Theorem unrecognised_action_is_silent (k a msg : string) (w : World) :
  Py.contains "warn" a = false ->
  Py.contains "err" a = false ->
  errortypes_get k (errortypes (handler w)) = None ->
  exists w1 w2,
    RegisterErrors [(k, a)] w = (Normal tt, w1) /\
    errortypes_get k (errortypes (handler w1)) = Some h_debug /\
    dispatch k msg w1 = (Normal tt, w2) /\
    errors (handler w2) = errors (handler w) /\
    warnings (handler w2) = warnings (handler w) /\
    exists lines,
      logged w2 = (logged w ++ map (pair DEBUG) lines)%list.
Proof.
  intros Hwarn Herr Hnew.
  do 2 eexists. rewrite RegisterErrors_spec, dispatch_spec.
  split; [reflexivity|].
  assert (E : errortypes_get k
                (register_all (errortypes (handler w)) [(k, a)]) = Some h_debug).
  { rewrite (register_all_new k a); [|assumption|now left|].
    - unfold handler_of_action. now rewrite Hwarn, Herr.
    - repeat constructor. intros []. }
  split; [exact E|]. split; [reflexivity|].
  cbv zeta. unfold resolve.
  cbn [with_errortypes handler errortypes logged _wrapper].
  rewrite E. cbn [count errors warnings handler Handler_level Handler_prefix].
  repeat split.
  eexists (_ ++ [_])%list. rewrite map_app. reflexivity.
Qed.

Lemma unrecognised_action_is_silent_witness :
  exists w1 w2,
    RegisterErrors [("dup-group", "silent")] boot = (Normal tt, w1) /\
    errortypes_get "dup-group" (errortypes (handler w1)) = Some h_debug /\
    dispatch "dup-group" "group foo defined twice" w1 = (Normal tt, w2) /\
    errors (handler w2) = errors (handler boot) /\
    warnings (handler w2) = warnings (handler boot) /\
    exists lines,
      logged w2 = (logged boot ++ map (pair DEBUG) lines)%list.
Proof.
  apply (unrecognised_action_is_silent "dup-group" "silent"); reflexivity.
Defined.

(** C5, as stated, fails: the action ["silent"] names neither the
    warning nor the error handling, yet the kind registered with it is
    not classified as an error and its dispatch leaves the error
    counter at zero. *)
Lemma silent_action_is_not_error :
  let w1 := snd (RegisterErrors [("dup-group", "silent")] boot) in
  let w2 := snd (dispatch "dup-group" "group foo defined twice" w1) in
  Py.contains "warn" "silent" = false /\
  Py.contains "err" "silent" = false /\
  resolve (errortypes (handler w1)) "dup-group" <> h_error /\
  errors (handler w2) = 0.
Proof. cbv zeta. repeat split. vm_compute. discriminate. Qed.

(** C6.  A dispatch of a kind that is not registered returns normally,
    adds exactly one to [errors], leaves [warnings] alone, logs the
    message as an error and then logs the warning ["Unknown error
    <kind>"]; the message plays no part in any of this. *)
Theorem dispatch_unknown_kind (err msg : string) (w : World) :
  errortypes_get err (errortypes (handler w)) = None ->
  exists w',
    dispatch err msg w = (Normal tt, w') /\
    errors (handler w') = errors (handler w) + 1 /\
    warnings (handler w') = warnings (handler w) /\
    logged w' =
      (logged w
       ++ map (pair ERROR) (rendered (_wrapper (handler w)) "ERROR: " msg)
       ++ [(WARNING, ("Unknown error " ++ err)%string)])%list.
Proof.
  intros Hnone. eexists. rewrite dispatch_spec. split; [reflexivity|].
  cbv zeta. unfold resolve. rewrite Hnone.
  repeat split.
Qed.

Lemma dispatch_unknown_kind_witness :
  exists w',
    dispatch "no-such-kind" "something odd" boot = (Normal tt, w') /\
    errors (handler w') = errors (handler boot) + 1 /\
    warnings (handler w') = warnings (handler boot) /\
    logged w' =
      (logged boot
       ++ map (pair ERROR)
              (rendered (_wrapper (handler boot)) "ERROR: " "something odd")
       ++ [(WARNING, ("Unknown error " ++ "no-such-kind")%string)])%list.
Proof.
  apply (dispatch_unknown_kind "no-such-kind" "something odd" boot).
  reflexivity.
Defined.

(** C7.  On a handler whose counters are zero, any finite sequence of
    dispatches returns normally and leaves [errors] equal to the
    number of events that resolve to [error] (unregistered kinds
    included) and [warnings] equal to the number that resolve to
    [warn]; and no sequence of handler operations (registering,
    dispatching, [error], [warn], [debug]) ever lowers a counter. *)
Theorem counters_count_resolved (evs : list (string * string)) (w : World) :
  errors (handler w) = 0 ->
  warnings (handler w) = 0 ->
  (exists w',
     dispatch_all evs w = (Normal tt, w') /\
     errors (handler w') = count_resolved (errortypes (handler w)) h_error evs /\
     warnings (handler w') = count_resolved (errortypes (handler w)) h_warn evs)
  /\
  (forall ops w0, exists w1,
     for_each ops do_op w0 = (Normal tt, w1) /\
     errors (handler w0) <= errors (handler w1) /\
     warnings (handler w0) <= warnings (handler w1)).
Proof.
  intros He Hw. split.
  - destruct (dispatch_all_spec evs w) as (w' & Hrun & Hh & _).
    destruct (tally_counters evs (handler w)) as [He' Hw'].
    exists w'. rewrite Hh. repeat split; [assumption| |]; lia.
  - intros ops w0. apply ops_monotone.
Qed.

Lemma counters_count_resolved_witness :
  (exists w',
     dispatch_all [("dup-group", "a"); ("stale-path", "b"); ("unheard-of", "c");
                   ("note", "d"); ("stale-path", "e")]
       (with_errortypes
          [("dup-group", h_error); ("stale-path", h_warn); ("note", h_debug)]
          boot)
     = (Normal tt, w') /\
     errors (handler w') = 2 /\
     warnings (handler w') = 2)
  /\
  (forall ops w0, exists w1,
     for_each ops do_op w0 = (Normal tt, w1) /\
     errors (handler w0) <= errors (handler w1) /\
     warnings (handler w0) <= warnings (handler w1)).
Proof.
  apply (counters_count_resolved
           [("dup-group", "a"); ("stale-path", "b"); ("unheard-of", "c");
            ("note", "d"); ("stale-path", "e")]
           (with_errortypes
              [("dup-group", h_error); ("stale-path", h_warn); ("note", h_debug)]
              boot)).
  - reflexivity.
  - reflexivity.
Defined.

(* ================================================================== *)
(** ** Rendering of a message *)
(* ================================================================== *)

Lemma str_app_assoc (a b c : string) : ((a ++ b) ++ c = a ++ (b ++ c))%string.
Proof. induction a as [|x a IH]; cbn; [reflexivity|now rewrite IH]. Qed.

Lemma str_app_nil_r (a : string) : (a ++ "")%string = a.
Proof. induction a as [|x a IH]; cbn; [reflexivity|now rewrite IH]. Qed.

(** [splitlines] reads through a stretch without line boundary. *)
Lemma splitlines_from_one_line p cur s :
  one_line p = true ->
  Py.splitlines_from cur (p ++ s) = Py.splitlines_from (cur ++ p) s.
Proof.
  revert cur. induction p as [|c p IH]; intros cur H.
  - cbn. now rewrite str_app_nil_r.
  - cbn in H. apply andb_prop in H as [Hc Hp].
    apply negb_true_iff in Hc.
    cbn [append Py.splitlines_from]. rewrite Hc, (IH _ Hp).
    now rewrite str_app_assoc.
Qed.

(** A newline ends the current line. *)
Lemma splitlines_from_newline cur s :
  Py.splitlines_from cur (NL ++ s) = cur :: Py.splitlines_from "" s.
Proof. destruct s; reflexivity. Qed.

Lemma splitlines_from_last cur :
  cur <> ""%string -> Py.splitlines_from cur "" = [cur].
Proof. destruct cur; [contradiction|reflexivity]. Qed.

(** Two one-line paragraphs with a blank line between them split into
    the first paragraph, the empty line and the second paragraph. *)
Lemma splitlines_two_paragraphs p1 p2 :
  one_line p1 = true -> one_line p2 = true -> p2 <> ""%string ->
  Py.splitlines (p1 ++ NL ++ NL ++ p2) = [p1; ""%string; p2].
Proof.
  intros H1 H2 Hne. unfold Py.splitlines.
  rewrite (splitlines_from_one_line p1) by assumption.
  rewrite splitlines_from_newline, splitlines_from_newline.
  rewrite <- (str_app_nil_r p2) at 1.
  rewrite (splitlines_from_one_line p2) by assumption.
  now rewrite splitlines_from_last.
Qed.

Lemma lstrip_decomposes l :
  exists ws, l = (ws ++ Py.lstrip l)%string /\ all_space ws = true.
Proof.
  induction l as [|c l (ws & Hl & Hws)].
  - now exists ""%string.
  - cbn [Py.lstrip]. destruct (Py.is_space c) eqn:E.
    + exists (String c ws). cbn. rewrite E, Hws. split; [|reflexivity].
      now rewrite <- Hl.
    + now exists ""%string.
Qed.

Lemma lstrip_no_leading_space l : starts_with_space (Py.lstrip l) = false.
Proof.
  induction l as [|c l IH]; [reflexivity|].
  cbn [Py.lstrip]. destruct (Py.is_space c) eqn:E; [assumption|].
  cbn. assumption.
Qed.

Lemma choose_wrapper_positive tw width height :
  0 < width -> choose_wrapper tw (Some (width, height)) = tw width.
Proof.
  intros H. unfold choose_wrapper.
  destruct (Z.ltb_spec 0 width); [reflexivity|lia].
Qed.

Lemma ErrorHandler_init_spec tw ts errs w :
  ErrorHandler_init tw ts errs w =
  (Normal tt,
   mkWorld (mkErrorHandler 0 0 (choose_wrapper tw ts)
              (register_all [] match errs with Some items => items | None => [] end))
           (logged w) (stdout w) (events w)).
Proof.
  unfold ErrorHandler_init, bind, set_handler.
  destruct errs as [items|]; [|reflexivity].
  now rewrite RegisterErrors_spec.
Qed.

(** C9.  On a handler built for a terminal of positive width, a
    message made of two one-line paragraphs with a blank line between
    them is logged as: the first wrapped line of the first paragraph,
    stripped on the left and carrying the prefix; then the other
    wrapped lines of the first paragraph; then what the wrapper makes
    of the empty line; then the wrapped lines of the second paragraph
    alone.  No line but the first receives the prefix, and the lines
    of the second paragraph are those the wrapper yields for the
    second paragraph by itself.  The first paragraph is one the
    wrapper yields a line for. *)
Theorem log_two_paragraphs
        (tw : Z -> string -> list string) (width height : Z)
        (errs : option (list (string * string)))
        (p1 p2 prefix : string) (lvl : Level) (w0 : World) :
  0 < width ->
  one_line p1 = true -> one_line p2 = true -> p2 <> ""%string ->
  tw width p1 <> [] ->
  exists w l1 ls1,
    ErrorHandler_init tw (Some (width, height)) errs w0 = (Normal tt, w) /\
    tw width p1 = l1 :: ls1 /\
    _log (p1 ++ NL ++ NL ++ p2) lvl prefix w =
    (Normal tt,
     mkWorld (handler w)
             (logged w ++
              map (pair lvl)
                  ((prefix ++ Py.lstrip l1)%string :: ls1
                   ++ tw width ""%string ++ tw width p2))
             (stdout w) (events w)).
Proof.
  intros Hpos H1 H2 Hne Hwrap.
  destruct (tw width p1) as [|l1 ls1] eqn:E; [contradiction|].
  eexists. exists l1, ls1.
  rewrite ErrorHandler_init_spec. split; [reflexivity|]. split; [reflexivity|].
  rewrite _log_spec. unfold rendered.
  rewrite splitlines_two_paragraphs by assumption.
  cbn [handler _wrapper logged stdout events map concat].
  rewrite choose_wrapper_positive by assumption.
  rewrite E, app_nil_r. reflexivity.
Qed.

Lemma log_two_paragraphs_witness :
  exists w l1 ls1,
    ErrorHandler_init Sample.greedy_wrap (Some (20, 24)) None boot
      = (Normal tt, w) /\
    Sample.greedy_wrap 20 "group web is defined in two files" = l1 :: ls1 /\
    _log ("group web is defined in two files" ++ NL ++ NL ++
          "remove one of the two definitions") ERROR "ERROR: " w =
    (Normal tt,
     mkWorld (handler w)
             (logged w ++
              map (pair ERROR)
                  (("ERROR: " ++ Py.lstrip l1)%string :: ls1
                   ++ Sample.greedy_wrap 20 ""%string
                   ++ Sample.greedy_wrap 20 "remove one of the two definitions"))
             (stdout w) (events w)).
Proof.
  apply (log_two_paragraphs Sample.greedy_wrap 20 24 None
           "group web is defined in two files"
           "remove one of the two definitions" "ERROR: " ERROR boot).
  - lia.
  - reflexivity.
  - reflexivity.
  - discriminate.
  - vm_compute. discriminate.
Defined.

Lemma choose_wrapper_passes wrap ts :
  match ts with
  | None => True
  | Some (width, _) => width <= 0
  end ->
  choose_wrapper wrap ts = fun s => [s].
Proof.
  intros H. unfold choose_wrapper. destruct ts as [[width height]|]; [|reflexivity].
  destruct (Z.ltb_spec 0 width); [lia|reflexivity].
Qed.

Lemma concat_map_singleton {A} (l : list A) : concat (map (fun x => [x]) l) = l.
Proof. induction l as [|x l IH]; cbn; [reflexivity|now rewrite IH]. Qed.

(** C10, as the source has it.  On the handler that
    [ErrorHandler.__init__] builds, [_log] returns normally and, when
    it emits anything, the first emitted line is the prefix followed at
    once by the first wrapped line with all its leading white space
    removed: nothing but white space is removed, and what follows the
    prefix does not start with white space, whatever indent the wrapper
    put there and whatever white space the message began with.  When
    the handler was built for a terminal of positive width and the
    wrapper of that width indents its lines by two spaces, every
    continuation line starts with these two spaces.  When it was built
    without a terminal size, or with a width that is not positive, the
    continuation lines are the remaining lines of the message,
    unchanged: no indent is added. *)
Theorem log_first_line_stripped
        (wrap : Z -> string -> list string) (ts : option (Z * Z))
        (errs : option (list (string * string)))
        (msg prefix : string) (lvl : Level) (w0 : World) :
  exists w emitted,
    ErrorHandler_init wrap ts errs w0 = (Normal tt, w) /\
    _log msg lvl prefix w =
      (Normal tt,
       mkWorld (handler w) (logged w ++ map (pair lvl) emitted)
               (stdout w) (events w)) /\
    match concat (map (choose_wrapper wrap ts) (Py.splitlines msg)) with
    | [] => emitted = []
    | l :: rest =>
        emitted = (prefix ++ Py.lstrip l)%string :: rest /\
        starts_with_space (Py.lstrip l) = false /\
        exists ws, l = (ws ++ Py.lstrip l)%string /\ all_space ws = true
    end /\
    (forall width height,
       ts = Some (width, height) -> 0 < width ->
       (forall s l, In l (wrap width s) -> String.prefix "  " l = true) ->
       Forall (fun l => String.prefix "  " l = true) (tl emitted)) /\
    (match ts with
     | None => True
     | Some (width, _) => width <= 0
     end ->
     tl emitted = tl (Py.splitlines msg)).
Proof.
  eexists. exists (rendered (choose_wrapper wrap ts) prefix msg).
  rewrite ErrorHandler_init_spec. split; [reflexivity|].
  split; [apply _log_spec|]. unfold rendered.
  split; [|split].
  - destruct (concat (map (choose_wrapper wrap ts) (Py.splitlines msg)))
      as [|l rest]; cbn [mark_first]; [reflexivity|].
    split; [reflexivity|]. split; [apply lstrip_no_leading_space|].
    apply lstrip_decomposes.
  - intros width height -> Hpos Hindent.
    rewrite choose_wrapper_positive by assumption.
    assert (Hall : Forall (fun l => String.prefix "  " l = true)
                          (concat (map (wrap width) (Py.splitlines msg)))).
    { apply Forall_forall. intros l Hl. apply in_concat in Hl as (ls & Hls & Hl).
      apply in_map_iff in Hls as (s & <- & _). now apply (Hindent s). }
    destruct (concat (map (wrap width) (Py.splitlines msg))) as [|l rest];
      cbn [mark_first tl]; [constructor|].
    now inversion Hall.
  - intros Hts. rewrite (choose_wrapper_passes wrap ts Hts), concat_map_singleton.
    now destruct (Py.splitlines msg).
Qed.

Lemma log_first_line_stripped_witness :
  exists w emitted,
    ErrorHandler_init Sample.greedy_wrap (Some (20, 24)) None boot = (Normal tt, w) /\
    _log ("   group web is defined in two files" ++ NL ++ "remove one of them")
         ERROR "ERROR: " w =
      (Normal tt,
       mkWorld (handler w) (logged w ++ map (pair ERROR) emitted)
               (stdout w) (events w)) /\
    emitted = ["ERROR: group web is"; "  defined in two"; "  files";
               "  remove one of them"]%string /\
    Forall (fun l => String.prefix "  " l = true) (tl emitted).
Proof.
  destruct (log_first_line_stripped Sample.greedy_wrap (Some (20, 24)) None
              ("   group web is defined in two files" ++ NL ++ "remove one of them")
              "ERROR: " ERROR boot)
    as (w & emitted & Hinit & Hlog & Hfirst & Hwrap & _).
  exists w, emitted. split; [exact Hinit|]. split; [exact Hlog|].
  split.
  - vm_compute in Hfirst. destruct Hfirst as [Hfirst _]. exact Hfirst.
  - apply (Hwrap 20 24); [reflexivity|reflexivity|].
    intros s l Hl. unfold Sample.greedy_wrap in Hl.
    apply in_map_iff in Hl as (x & <- & _). cbn. now destruct x.
Defined.

(** C10, as stated, fails on a handler built without a terminal: the
    second line of the message is emitted as it is, and it carries no
    two-space indent. *)
Lemma continuation_line_without_indent :
  exists w,
    ErrorHandler_init Sample.greedy_wrap None None boot = (Normal tt, w) /\
    logged (snd (_log ("group web is defined twice" ++ NL ++ "remove one of them")
                      ERROR "ERROR: " w)) =
      [(ERROR, "ERROR: group web is defined twice"%string);
       (ERROR, "remove one of them"%string)] /\
    String.prefix "  " "remove one of them" = false.
Proof. eexists. split; [reflexivity|]. split; reflexivity. Qed.

(* ================================================================== *)
(** ** One plugin, one loop, one phase *)
(* ================================================================== *)

Lemma Plugin_init_spec p w :
  Plugin_init p w =
  (Normal tt,
   mkWorld (mkErrorHandler (errors (handler w)) (warnings (handler w))
              (_wrapper (handler w))
              (register_all (errortypes (handler w)) (Errors p)))
           (logged w) (stdout w) (events w ++ [EvConstruct p])).
Proof.
  unfold Plugin_init, bind, observe. now rewrite RegisterErrors_spec.
Qed.

Lemma Plugin_Run_spec p fs w :
  exists w',
    Plugin_Run p fs w = (outcome_result (snd (Run p fs)), w') /\
    handler w' = tally (handler w) (fst (Run p fs)) /\
    stdout w' = stdout w /\
    events w' = (events w ++ [EvRun p])%list.
Proof.
  unfold Plugin_Run, bind at 1, observe.
  match goal with |- context [bind _ _ ?w1] =>
    destruct (dispatch_all_spec (fst (Run p fs)) w1) as (w' & Hrun & Hh & Hs & Hev)
  end.
  exists w'. unfold dispatch_all in Hrun. unfold bind, LintError.
  rewrite Hrun. cbn [handler stdout events] in *.
  destruct (snd (Run p fs)); cbn [outcome_result]; repeat split; assumption.
Qed.

(** The loop body on one plugin: the result is how [Run] ends, the
    handler is the one the plugin's findings give, and the plugin is
    seen to be instantiated and run. *)
Lemma run_one_spec cli p w :
  exists w',
    run_one cli p w = (outcome_result (snd (Run p (files cli))), w') /\
    handler w' = after_plugin (files cli) (handler w) p /\
    stdout w' = stdout w /\
    events w' = (events w ++ [EvConstruct p; EvRun p])%list.
Proof.
  unfold run_one, bind at 1, logger_call. unfold bind at 1.
  rewrite Plugin_init_spec. cbn [handler logged stdout events].
  match goal with |- context [Plugin_Run p (files cli) ?w1] =>
    destruct (Plugin_Run_spec p (files cli) w1) as (w' & Hrun & Hh & Hs & Hev)
  end.
  exists w'. rewrite Hrun. cbn [handler stdout events] in *.
  repeat split; try assumption.
  rewrite Hev, <- app_assoc. reflexivity.
Qed.

Lemma plugin_events_app ps qs :
  plugin_events (ps ++ qs) = (plugin_events ps ++ plugin_events qs)%list.
Proof. unfold plugin_events. apply flat_map_app. Qed.

Lemma after_plugins_app fs h ps qs :
  after_plugins fs h (ps ++ qs) = after_plugins fs (after_plugins fs h ps) qs.
Proof. unfold after_plugins. apply fold_left_app. Qed.

(** The loop over a list of plugins stops at the first plugin whose
    [Run] raises: [done] is the part of the list that was instantiated
    and run, and it is the whole list when the loop returns. *)
Lemma loop_spec cli ps w :
  exists r w' done rest,
    for_each ps (run_one cli) w = (r, w') /\
    ps = (done ++ rest)%list /\
    handler w' = after_plugins (files cli) (handler w) done /\
    stdout w' = stdout w /\
    events w' = (events w ++ plugin_events done)%list /\
    match r with
    | Normal _ => rest = []
    | Raised e =>
        exists done' p,
          done = (done' ++ [p])%list /\ snd (Run p (files cli)) = Raises e
    end /\
    Forall (fun q => snd (Run q (files cli)) = Returns)
           match r with Normal _ => done | Raised _ => removelast done end.
Proof.
  revert w. induction ps as [|p ps IH]; intros w.
  - exists (Normal tt), w, [], []. cbn. rewrite app_nil_r. repeat split.
    constructor.
  - cbn [for_each]. unfold bind.
    destruct (run_one_spec cli p w) as (w1 & Hone & Hh1 & Hs1 & Hev1).
    rewrite Hone.
    destruct (snd (Run p (files cli))) as [|e] eqn:Hout; cbn [outcome_result].
    + destruct (IH w1) as (r & w' & done & rest & Hrun & Hps & Hh & Hs & Hev & Hr & Hall).
      exists r, w', (p :: done), rest. rewrite Hrun.
      split; [reflexivity|]. split; [now rewrite Hps|].
      split; [now rewrite Hh, Hh1|]. split; [congruence|].
      split; [rewrite Hev, Hev1, <- app_assoc; reflexivity|].
      destruct r as [[]|e].
      * split; [assumption|]. now constructor.
      * destruct Hr as (done' & q & Hd & Hq).
        split.
        -- exists (p :: done'), q. now rewrite Hd.
        -- rewrite Hd in *. rewrite removelast_last in Hall.
           change (p :: done' ++ [q]) with ((p :: done') ++ [q]).
           rewrite removelast_last. now constructor.
    + exists (Raised e), w1, [p], ps.
      split; [reflexivity|]. split; [reflexivity|].
      split; [exact Hh1|]. split; [exact Hs1|]. split; [exact Hev1|].
      split; [now exists [], p|]. constructor.
Qed.

(** When every plugin returns, the loop returns and all of them ran. *)
Lemma loop_returns cli ps w :
  Forall (fun q => snd (Run q (files cli)) = Returns) ps ->
  exists w',
    for_each ps (run_one cli) w = (Normal tt, w') /\
    handler w' = after_plugins (files cli) (handler w) ps /\
    stdout w' = stdout w /\
    events w' = (events w ++ plugin_events ps)%list.
Proof.
  revert w. induction ps as [|p ps IH]; intros w Hall.
  - exists w. cbn. rewrite app_nil_r. repeat split.
  - inversion Hall as [|? ? Hp Hps]; subst.
    destruct (run_one_spec cli p w) as (w1 & Hone & Hh1 & Hs1 & Hev1).
    destruct (IH w1 Hps) as (w' & Hrun & Hh & Hs & Hev).
    exists w'. cbn [for_each]. unfold bind. rewrite Hone, Hp.
    cbn [outcome_result]. rewrite Hrun.
    split; [reflexivity|]. split; [now rewrite Hh, Hh1|].
    split; [congruence|]. rewrite Hev, Hev1, <- app_assoc. reflexivity.
Qed.

(** When a plugin raises after others returned, the loop raises the
    same exception there and the plugins behind it are never reached. *)
Lemma loop_raises cli ps1 p ps2 e w :
  Forall (fun q => snd (Run q (files cli)) = Returns) ps1 ->
  snd (Run p (files cli)) = Raises e ->
  exists w',
    for_each (ps1 ++ p :: ps2) (run_one cli) w = (Raised e, w') /\
    handler w' = after_plugins (files cli) (handler w) (ps1 ++ [p]) /\
    stdout w' = stdout w /\
    events w' = (events w ++ plugin_events (ps1 ++ [p]))%list.
Proof.
  revert w. induction ps1 as [|q ps1 IH]; intros w Hall Hp.
  - destruct (run_one_spec cli p w) as (w1 & Hone & Hh1 & Hs1 & Hev1).
    exists w1. cbn [app for_each]. unfold bind. rewrite Hone, Hp.
    cbn [outcome_result]. repeat split; assumption.
  - inversion Hall as [|? ? Hq Hps]; subst.
    destruct (run_one_spec cli q w) as (w1 & Hone & Hh1 & Hs1 & Hev1).
    destruct (IH w1 Hps Hp) as (w' & Hrun & Hh & Hs & Hev).
    exists w'. cbn [app for_each]. unfold bind. rewrite Hone, Hq.
    cbn [outcome_result]. rewrite Hrun.
    split; [reflexivity|]. split; [now rewrite Hh, Hh1|].
    split; [congruence|]. rewrite Hev, Hev1, <- app_assoc. reflexivity.
Qed.

Lemma after_plugin_monotone fs h p :
  errors h <= errors (after_plugin fs h p) /\
  warnings h <= warnings (after_plugin fs h p).
Proof.
  unfold after_plugin.
  match goal with |- context [tally ?h0 ?evs] =>
    destruct (tally_counters evs h0) as [He Hw] end.
  rewrite He, Hw. unfold count_resolved. cbn [errors warnings]. lia.
Qed.

Lemma after_plugins_monotone fs ps h :
  errors h <= errors (after_plugins fs h ps) /\
  warnings h <= warnings (after_plugins fs h ps).
Proof.
  unfold after_plugins. revert h.
  induction ps as [|p ps IH]; intros h; cbn [fold_left]; [lia|].
  destruct (after_plugin_monotone fs h p), (IH (after_plugin fs h p)). lia.
Qed.

(** A phase in general: the plugins [done] were instantiated and run,
    between the events that open and close the phase; the phase
    returns only when all of its plugins ran.  A server core that
    fails to start ends the server phase at once, nothing done. *)
Lemma run_phase_spec ph cli w :
  exists r w' done rest,
    run_phase ph cli w = (r, w') /\
    phase_plugins ph cli = done ++ rest /\
    handler w' = after_plugins (files cli) (handler w) done /\
    stdout w' = stdout w /\
    (events w' = events w ++ phase_opens ph ++ plugin_events done ++ phase_closes ph
     \/ (ph = Server /\ done = [] /\ events w' = events w /\
         exists e, core cli = Some e /\ r = Raised e)) /\
    match r with
    | Normal _ => rest = []
    | Raised e => True
    end.
Proof.
  destruct ph; cbn [run_phase phase_plugins phase_opens phase_closes].
  - unfold run_serverless_plugins, bind, logger_call.
    match goal with |- context [for_each _ _ ?w1] =>
      destruct (loop_spec cli (serverlessplugins cli) w1)
        as (r & w' & done & rest & Hrun & Hps & Hh & Hs & Hev & Hr & _) end.
    exists r, w', done, rest. rewrite Hrun. cbn [handler stdout events] in *.
    rewrite app_nil_r. repeat split; try assumption.
    + now left.
    + destruct r; [assumption|exact I].
  - unfold run_server_plugins.
    destruct (core cli) as [e|] eqn:Hcore.
    { exists (Raised e), w, [], (serverplugins cli).
      repeat split. right. repeat split. now exists e. }
    unfold bind at 1, observe, try_finally.
    unfold bind, logger_call.
    match goal with |- context [for_each _ _ ?w1] =>
      destruct (loop_spec cli (serverplugins cli) w1)
        as (r & w' & done & rest & Hrun & Hps & Hh & Hs & Hev & Hr & _) end.
    rewrite Hrun. cbn [handler stdout events] in *.
    destruct r as [[]|e].
    + eexists (Normal tt), _, done, rest. split; [reflexivity|].
      cbn [handler stdout events]. rewrite Hev, <- !app_assoc.
      repeat split; try assumption. now left.
    + eexists (Raised e), _, done, rest. split; [reflexivity|].
      cbn [handler stdout events]. rewrite Hev, <- !app_assoc.
      repeat split; try assumption. now left.
Qed.

(** A phase whose plugins all return, the core starting when it is
    the server phase. *)
Lemma run_phase_returns ph cli w :
  core_ready ph cli ->
  Forall (fun q => snd (Run q (files cli)) = Returns) (phase_plugins ph cli) ->
  exists w',
    run_phase ph cli w = (Normal tt, w') /\
    handler w' = after_plugins (files cli) (handler w) (phase_plugins ph cli) /\
    stdout w' = stdout w /\
    events w' = events w ++ phase_opens ph
                ++ plugin_events (phase_plugins ph cli) ++ phase_closes ph.
Proof.
  intros Hcore Hall.
  destruct ph; cbn [run_phase phase_plugins phase_opens phase_closes core_ready] in *.
  - unfold run_serverless_plugins, bind, logger_call.
    match goal with |- context [for_each _ _ ?w1] =>
      destruct (loop_returns cli (serverlessplugins cli) w1 Hall)
        as (w' & Hrun & Hh & Hs & Hev) end.
    exists w'. rewrite Hrun. cbn [handler stdout events] in *.
    rewrite app_nil_r. repeat split; assumption.
  - unfold run_server_plugins. rewrite Hcore.
    unfold bind at 1, observe, try_finally.
    unfold bind, logger_call.
    match goal with |- context [for_each _ _ ?w1] =>
      destruct (loop_returns cli (serverplugins cli) w1 Hall)
        as (w' & Hrun & Hh & Hs & Hev) end.
    rewrite Hrun. cbn [handler stdout events] in *.
    eexists. split; [reflexivity|]. cbn [handler stdout events].
    rewrite Hev, <- !app_assoc. repeat split; assumption.
Qed.

(** A phase in which a plugin raises after others returned: the phase
    raises the same exception; in the server phase the core, which
    started, is shut down on the way out. *)
Lemma run_phase_raises ph cli ps1 p ps2 e w :
  core_ready ph cli ->
  phase_plugins ph cli = ps1 ++ p :: ps2 ->
  Forall (fun q => snd (Run q (files cli)) = Returns) ps1 ->
  snd (Run p (files cli)) = Raises e ->
  exists w',
    run_phase ph cli w = (Raised e, w') /\
    handler w' = after_plugins (files cli) (handler w) (ps1 ++ [p]) /\
    stdout w' = stdout w /\
    events w' = events w ++ phase_opens ph
                ++ plugin_events (ps1 ++ [p]) ++ phase_closes ph.
Proof.
  intros Hcore Hps Hall Hp.
  destruct ph; cbn [run_phase phase_plugins phase_opens phase_closes core_ready] in *.
  - unfold run_serverless_plugins, bind, logger_call. rewrite Hps.
    match goal with |- context [for_each _ _ ?w1] =>
      destruct (loop_raises cli ps1 p ps2 e w1 Hall Hp)
        as (w' & Hrun & Hh & Hs & Hev) end.
    exists w'. rewrite Hrun. cbn [handler stdout events] in *.
    rewrite app_nil_r. repeat split; assumption.
  - unfold run_server_plugins. rewrite Hcore.
    unfold bind at 1, observe, try_finally.
    unfold bind, logger_call. rewrite Hps.
    match goal with |- context [for_each _ _ ?w1] =>
      destruct (loop_raises cli ps1 p ps2 e w1 Hall Hp)
        as (w' & Hrun & Hh & Hs & Hev) end.
    rewrite Hrun. cbn [handler stdout events] in *.
    eexists. split; [reflexivity|]. cbn [handler stdout events].
    rewrite Hev, <- !app_assoc. repeat split; assumption.
Qed.

(* ================================================================== *)
(** ** The whole run *)
(* ================================================================== *)

Lemma truthy_false n : Py.truthy n = false <-> n = 0.
Proof.
  unfold Py.truthy. destruct (Z.eqb_spec n 0); cbn; split; congruence.
Qed.

Lemma truthy_positive n : 0 <= n -> Py.truthy n = (0 <? n).
Proof.
  intros H. unfold Py.truthy.
  destruct (Z.eqb_spec n 0), (Z.ltb_spec 0 n); cbn; try reflexivity; lia.
Qed.

Lemma status_exit_code h :
  0 <= errors h -> 0 <= warnings h -> status h = exit_code_of h.
Proof.
  intros He Hw. unfold status, exit_code_of.
  now rewrite !truthy_positive by assumption.
Qed.

(** With [--list-errors], [run] returns 0 and leaves no observation
    point: no plugin is instantiated or run. *)
Lemma run_list_errors setup cli w :
  list_errors setup = true ->
  exists w', run setup cli w = (Normal 0, w') /\ events w' = events w.
Proof.
  intros Hl. unfold run. rewrite Hl.
  assert (Hreg : forall ps w0, exists w1,
             for_each ps (fun plugin => RegisterErrors (Errors plugin)) w0
               = (Normal tt, w1) /\ events w1 = events w0).
  { induction ps as [|p ps IH]; intros w0.
    - now exists w0.
    - cbn [for_each]. unfold bind. rewrite RegisterErrors_spec.
      destruct (IH (with_errortypes
                      (register_all (errortypes (handler w0)) (Errors p)) w0))
        as (w1 & H1 & H2).
      exists w1. now rewrite H1. }
  assert (Hpr : forall (items : list (string * Handler)) w0, exists w1,
             for_each items (fun item =>
               print (Py.ljust 35 (fst item) ++ " " ++
                      Py.ljust 35 (Handler_name (snd item)))) w0
               = (Normal tt, w1) /\ events w1 = events w0).
  { induction items as [|it items IH]; intros w0.
    - now exists w0.
    - cbn [for_each]. unfold bind, print at 1.
      match goal with |- context [for_each items _ ?w2] =>
        destruct (IH w2) as (w1 & H1 & H2) end.
      exists w1. now rewrite H1. }
  unfold bind at 1.
  destruct (Hreg (serverplugins cli ++ serverlessplugins cli) w) as (w1 & H1 & E1).
  rewrite H1. unfold bind at 1, print at 1. unfold bind at 1, get_handler.
  cbn [handler]. unfold bind.
  match goal with |- context [for_each (errortypes ?h) _ ?w2] =>
    destruct (Hpr (errortypes h) w2) as (w3 & H3 & E3) end.
  rewrite H3. exists w3. split; [reflexivity|].
  rewrite E3. cbn [events]. assumption.
Qed.

(** With no plugin at all, [run] returns 1. *)
Lemma run_no_plugins setup cli w :
  list_errors setup = false ->
  serverplugins cli = [] -> serverlessplugins cli = [] ->
  exists w', run setup cli w = (Normal 1, w') /\ events w' = events w.
Proof.
  intros Hl Hs Hn. unfold run. rewrite Hl, Hs, Hn. cbn [is_empty andb].
  eexists. split; reflexivity.
Qed.

(** The end of [run]: the report and the exit code. *)
Ltac run_report :=
  unfold bind, get_handler, print, ret, status;
  cbn [handler events stdout logged];
  repeat match goal with
         | |- context [Py.truthy ?n] => destruct (Py.truthy n)
         | |- context [verbose ?s] => destruct (verbose s)
         end;
  cbn [orb];
  eexists; repeat split.

(** An exception of the serverless phase leaves [run] as it is. *)
Lemma run_serverless_raises setup cli w e w1 :
  list_errors setup = false ->
  (is_empty (serverplugins cli) && is_empty (serverlessplugins cli))%bool = false ->
  run_serverless_plugins cli w = (Raised e, w1) ->
  run setup cli w = (Raised e, w1).
Proof.
  intros Hl Hne Hrun. unfold run. rewrite Hl, Hne.
  unfold bind at 1. rewrite Hrun. reflexivity.
Qed.

(** After a serverless phase that returned, [run] goes straight to
    the report when there is no server plugin or when an error was
    counted. *)
Lemma run_skips_server setup cli w w1 :
  list_errors setup = false ->
  (is_empty (serverplugins cli) && is_empty (serverlessplugins cli))%bool = false ->
  run_serverless_plugins cli w = (Normal tt, w1) ->
  serverplugins cli = [] \/ errors (handler w1) <> 0 ->
  exists w',
    run setup cli w = (Normal (status (handler w1)), w') /\
    handler w' = handler w1 /\
    events w' = events w1.
Proof.
  intros Hl Hne Hrun Hskip. unfold run. rewrite Hl, Hne.
  unfold bind at 1. rewrite Hrun. unfold bind at 1.
  destruct Hskip as [Hs|He].
  - rewrite Hs. cbn [is_empty]. unfold ret at 1. run_report.
  - destruct (is_empty (serverplugins cli)).
    + unfold ret at 1. run_report.
    + unfold bind at 1, get_handler at 1.
      destruct (Py.truthy (errors (handler w1))) eqn:T.
      * run_report.
      * apply truthy_false in T. contradiction.
Qed.

(** After a serverless phase that returned without error, [run]
    enters the server phase when there is a server plugin; what the
    phase raises leaves [run], and when it returns the report
    follows. *)
Lemma run_enters_server setup cli w w1 r w2 :
  list_errors setup = false ->
  serverplugins cli <> [] ->
  run_serverless_plugins cli w = (Normal tt, w1) ->
  errors (handler w1) = 0 ->
  run_server_plugins cli w1 = (r, w2) ->
  match r with
  | Raised e => run setup cli w = (Raised e, w2)
  | Normal _ =>
      exists w',
        run setup cli w = (Normal (status (handler w2)), w') /\
        handler w' = handler w2 /\
        events w' = events w2
  end.
Proof.
  intros Hl Hne Hrun He Hsrv. apply truthy_false in He.
  destruct r as [[]|e]; unfold run; rewrite Hl;
    (destruct (serverplugins cli) eqn:E; [contradiction|]);
    cbn [is_empty andb];
    unfold bind at 1; rewrite Hrun; unfold bind at 1;
    unfold bind at 1, get_handler at 1;
    rewrite He, Hsrv; [|reflexivity].
  run_report.
Qed.

(** [CLI.__init__] never raises: it builds a handler with both
    counters at zero and splits the plugin list by kind. *)
Lemma CLI_init_spec env setup w :
  exists w',
    CLI_init env setup w =
      (Normal (mkCLI (cli_files env setup)
                     (filter (fun p => negb (is_ServerPlugin p)) (lint_plugins setup))
                     (filter is_ServerPlugin (lint_plugins setup))
                     (core_start env)),
       w') /\
    errors (handler w') = 0 /\
    warnings (handler w') = 0 /\
    events w' = events w.
Proof.
  unfold CLI_init, get_errorhandler, bind at 1, logger_call.
  unfold bind. rewrite ErrorHandler_init_spec.
  eexists. split; [reflexivity|]. repeat split.
Qed.

(* ------------------------------------------------------------------ *)
(** The run, phase by phase *)

Lemma report_spec setup w :
  (h <- get_handler ;;
   (if (Py.truthy (errors h) || Py.truthy (warnings h) || verbose setup)%bool then
      print (Py.fmt_d (errors h) ++ " errors") ;;
      print (Py.fmt_d (warnings h) ++ " warnings")
    else ret tt) ;;
   if Py.truthy (errors h) then ret 2
   else if Py.truthy (warnings h) then ret 3
   else ret 0) w = report setup w.
Proof.
  unfold bind, get_handler, report, status, summary.
  destruct (Py.truthy (errors (handler w))), (Py.truthy (warnings (handler w))),
    (verbose setup); cbn [orb]; unfold bind, print, ret;
    cbn [handler logged stdout events]; rewrite <- ?app_assoc; reflexivity.
Qed.

(** [run] without [--list-errors] and with some plugin, phase by
    phase. *)
Lemma run_unfolds setup cli w :
  list_errors setup = false ->
  (is_empty (serverplugins cli) && is_empty (serverlessplugins cli))%bool = false ->
  run setup cli w =
  match run_serverless_plugins cli w with
  | (Raised e, w1) => (Raised e, w1)
  | (Normal _, w1) =>
      if is_empty (serverplugins cli) then report setup w1
      else if Py.truthy (errors (handler w1))
           then report setup (printed skip_notice w1)
           else match run_server_plugins cli w1 with
                | (Raised e, w2) => (Raised e, w2)
                | (Normal _, w2) => report setup w2
                end
  end.
Proof.
  intros Hl Hne. unfold run. rewrite Hl, Hne.
  unfold bind at 1.
  destruct (run_serverless_plugins cli w) as [[[]|e] w1]; [|reflexivity].
  unfold bind at 1.
  destruct (is_empty (serverplugins cli)).
  - unfold ret at 1. apply report_spec.
  - unfold bind at 1, get_handler at 1.
    destruct (Py.truthy (errors (handler w1))).
    + unfold print at 1. apply report_spec.
    + destruct (run_server_plugins cli w1) as [[[]|e] w2]; [|reflexivity].
      apply report_spec.
Qed.

Lemma report_keeps setup w :
  handler (snd (report setup w)) = handler w /\
  events (snd (report setup w)) = events w /\
  logged (snd (report setup w)) = logged w.
Proof.
  unfold report. cbn [snd].
  destruct (_ || _ || _)%bool; repeat split.
Qed.

Lemma report_result setup w :
  fst (report setup w) = Normal (status (handler w)) /\
  handler (snd (report setup w)) = handler w /\
  stdout (snd (report setup w)) =
    stdout w ++ (if (negb (status (handler w) =? 0) || verbose setup)%bool
                 then summary (handler w) else []).
Proof.
  unfold report, status. cbn [fst snd].
  destruct (Py.truthy (errors (handler w))), (Py.truthy (warnings (handler w))),
    (verbose setup); cbn; rewrite ?app_nil_r; repeat split.
Qed.

Lemma nonempty_lists {A} (xs ys : list A) :
  xs ++ ys <> [] -> (is_empty ys && is_empty xs)%bool = false.
Proof.
  destruct xs, ys; cbn; try reflexivity. intros H. now contradiction H.
Qed.

(** The serverless phase: the plugins [done] were instantiated and
    run; the phase returns only when all of its plugins ran. *)
Lemma run_serverless_spec cli w :
  exists r w' done rest,
    run_serverless_plugins cli w = (r, w') /\
    serverlessplugins cli = done ++ rest /\
    handler w' = after_plugins (files cli) (handler w) done /\
    stdout w' = stdout w /\
    events w' = events w ++ plugin_events done /\
    match r with
    | Normal _ => rest = []
    | Raised e => True
    end.
Proof.
  destruct (run_phase_spec Serverless cli w)
    as (r & w' & done & rest & Hrun & Hps & Hh & Hs & Hev & Hr).
  cbn [run_phase phase_plugins phase_opens phase_closes app] in *.
  exists r, w', done, rest.
  destruct Hev as [Hev|(Hph & _)]; [|discriminate].
  rewrite app_nil_r in Hev. repeat split; assumption.
Qed.

(** The server phase: either the core fails to start and the phase
    raises at once, or the core starts, the plugins [done] are
    instantiated and run and the core is shut down. *)
Lemma run_server_spec cli w :
  (exists e, core cli = Some e /\ run_server_plugins cli w = (Raised e, w)) \/
  (core cli = None /\
   exists r w' done rest,
     run_server_plugins cli w = (r, w') /\
     serverplugins cli = done ++ rest /\
     handler w' = after_plugins (files cli) (handler w) done /\
     stdout w' = stdout w /\
     events w' = events w ++ [EvCoreStart] ++ plugin_events done ++ [EvCoreShutdown] /\
     match r with
     | Normal _ => rest = []
     | Raised e => True
     end).
Proof.
  destruct (core cli) as [e|] eqn:Hcore.
  - left. exists e. split; [reflexivity|]. unfold run_server_plugins. now rewrite Hcore.
  - right. split; [reflexivity|].
    destruct (run_phase_spec Server cli w)
      as (r & w' & done & rest & Hrun & Hps & Hh & Hs & Hev & Hr).
    cbn [run_phase phase_plugins phase_opens phase_closes] in *.
    exists r, w', done, rest.
    destruct Hev as [Hev|(_ & _ & _ & e & He & _)]; [|congruence].
    repeat split; assumption.
Qed.

Lemma is_empty_false {A} (xs : list A) : xs <> [] -> is_empty xs = false.
Proof. destruct xs; [contradiction|reflexivity]. Qed.

Lemma is_empty_true {A} (xs : list A) : is_empty xs = true -> xs = [].
Proof. destruct xs; [reflexivity|discriminate]. Qed.

Lemma scheduled_without_server cli h :
  serverplugins cli = [] \/
  errors (after_plugins (files cli) h (serverlessplugins cli)) <> 0 ->
  after_plugins (files cli) h (scheduled cli h) =
  after_plugins (files cli) h (serverlessplugins cli).
Proof.
  intros H. unfold scheduled.
  destruct (Z.eqb_spec
              (errors (after_plugins (files cli) h (serverlessplugins cli))) 0)
    as [Hz|Hnz].
  - destruct H as [->|H]; [now rewrite app_nil_r|contradiction].
  - now rewrite app_nil_r.
Qed.

Lemma scheduled_with_server cli h :
  errors (after_plugins (files cli) h (serverlessplugins cli)) = 0 ->
  scheduled cli h = serverlessplugins cli ++ serverplugins cli.
Proof. intros H. unfold scheduled. now rewrite H. Qed.

(** What [run] returns when it returns: the handler the findings of the
    scheduled plugins give, and the exit code of its counters. *)
Lemma run_returned setup cli w code w' :
  list_errors setup = false ->
  serverlessplugins cli ++ serverplugins cli <> [] ->
  run setup cli w = (Normal code, w') ->
  handler w' = after_plugins (files cli) (handler w) (scheduled cli (handler w)) /\
  code = status (handler w').
Proof.
  intros Hl Hsome Hrun.
  rewrite (run_unfolds setup cli w Hl (nonempty_lists _ _ Hsome)) in Hrun.
  destruct (run_serverless_spec cli w)
    as (r1 & w1 & done1 & rest1 & Hrun1 & Hps1 & Hh1 & _ & _ & Hr1).
  rewrite Hrun1 in Hrun. destruct r1 as [[]|e]; [|discriminate].
  subst rest1. rewrite app_nil_r in Hps1. subst done1.
  assert (Hrep : forall w2, report setup w2 = (Normal code, w') ->
                 handler w' = handler w2 /\ code = status (handler w2)).
  { intros w2 Hr. destruct (report_result setup w2) as (Hc & Hh & _).
    rewrite Hr in Hc, Hh. cbn [fst snd] in Hc, Hh. now injection Hc as ->. }
  destruct (is_empty (serverplugins cli)) eqn:Es.
  { apply is_empty_true in Es. destruct (Hrep w1 Hrun) as [Hh Hc].
    rewrite Hc, Hh, Hh1. split; [|reflexivity].
    symmetry. apply scheduled_without_server. now left. }
  destruct (Py.truthy (errors (handler w1))) eqn:T.
  { destruct (Hrep _ Hrun) as [Hh Hc]. cbn [printed handler] in Hh, Hc.
    rewrite Hc, Hh, Hh1. split; [|reflexivity].
    symmetry. apply scheduled_without_server. right.
    rewrite <- Hh1. intros Hz. apply truthy_false in Hz. congruence. }
  apply truthy_false in T.
  destruct (run_server_spec cli w1)
    as [(e & _ & Hsrv)|(_ & r2 & w2 & done2 & rest2 & Hsrv & Hps2 & Hh2 & _ & _ & Hr2)];
    rewrite Hsrv in Hrun; [discriminate|].
  destruct r2 as [[]|e]; [|discriminate].
  subst rest2. rewrite app_nil_r in Hps2. subst done2.
  destruct (Hrep w2 Hrun) as [Hh Hc].
  rewrite Hc, Hh, Hh2, Hh1. split; [|reflexivity].
  rewrite scheduled_with_server by (now rewrite <- Hh1).
  now rewrite after_plugins_app.
Qed.

(** [run] returns when the scheduled plugins return and the core, if it
    is needed, starts. *)
Lemma run_returns setup cli w :
  list_errors setup = false ->
  serverlessplugins cli ++ serverplugins cli <> [] ->
  Forall (fun q => snd (Run q (files cli)) = Returns) (scheduled cli (handler w)) ->
  core cli = None \/ scheduled cli (handler w) = serverlessplugins cli ->
  exists code w', run setup cli w = (Normal code, w').
Proof.
  intros Hl Hsome Hall Hcore.
  rewrite (run_unfolds setup cli w Hl (nonempty_lists _ _ Hsome)).
  assert (Hall1 : Forall (fun q => snd (Run q (files cli)) = Returns)
                         (serverlessplugins cli)).
  { unfold scheduled in Hall. now apply Forall_app in Hall as [H _]. }
  destruct (run_phase_returns Serverless cli w I Hall1) as (w1 & Hrun1 & Hh1 & _).
  cbn [run_phase phase_plugins] in *. rewrite Hrun1.
  destruct (is_empty (serverplugins cli)) eqn:Es.
  { unfold report. do 2 eexists. reflexivity. }
  destruct (Py.truthy (errors (handler w1))) eqn:T.
  { unfold report. do 2 eexists. reflexivity. }
  apply truthy_false in T. rewrite Hh1 in T.
  rewrite (scheduled_with_server _ _ T) in Hall, Hcore.
  apply Forall_app in Hall as [_ Hall2].
  assert (Hc : core cli = None).
  { destruct Hcore as [Hc|Heq]; [assumption|].
    rewrite <- (app_nil_r (serverlessplugins cli)) in Heq at 2.
    apply app_inv_head in Heq. now rewrite Heq in Es. }
  destruct (run_phase_returns Server cli w1 Hc Hall2) as (w2 & Hrun2 & _).
  cbn [run_phase] in Hrun2. rewrite Hrun2.
  unfold report. do 2 eexists. reflexivity.
Qed.

(* ================================================================== *)
(** ** Claims on the runner *)
(* ================================================================== *)

(** C2.  The exit code of [run], in priority order, from any state of
    the handler whose counters are not negative.  With [--list-errors]
    [run] returns 0 and no plugin is instantiated or run.  Otherwise,
    with no plugin selected it returns 1.  Otherwise the final handler
    is the one the findings of the scheduled plugins give, added to the
    counters [run] started with, and the exit code is 2 when its error
    count is positive (whatever the warning count), else 3 when its
    warning count is positive, else 0: every code [run] returns is
    this one, and [run] does return it when the scheduled plugins
    return and the server core, where it is needed, starts. *)
Theorem exit_code_priority (setup : Setup) (cli : CLI) (w : World) :
  0 <= errors (handler w) ->
  0 <= warnings (handler w) ->
  (list_errors setup = true ->
   exists w', run setup cli w = (Normal 0, w') /\ events w' = events w) /\
  (list_errors setup = false ->
   serverlessplugins cli ++ serverplugins cli = [] ->
   exists w', run setup cli w = (Normal 1, w') /\ events w' = events w) /\
  (list_errors setup = false ->
   serverlessplugins cli ++ serverplugins cli <> [] ->
   let final :=
     after_plugins (files cli) (handler w) (scheduled cli (handler w)) in
   let code :=
     if 0 <? errors final then 2
     else if 0 <? warnings final then 3
     else 0 in
   (forall code' w',
      run setup cli w = (Normal code', w') ->
      handler w' = final /\ code' = code) /\
   (Forall (fun q => snd (Run q (files cli)) = Returns)
           (scheduled cli (handler w)) ->
    core cli = None \/ scheduled cli (handler w) = serverlessplugins cli ->
    exists w', run setup cli w = (Normal code, w') /\ handler w' = final)).
Proof.
  intros He Hw. split; [|split].
  - intros Hl. now apply run_list_errors.
  - intros Hl Hnone. apply app_eq_nil in Hnone as [H1 H2].
    now apply run_no_plugins.
  - intros Hl Hsome final code.
    assert (Hret : forall code' w',
               run setup cli w = (Normal code', w') ->
               handler w' = final /\ code' = code).
    { intros code' w' Hrun.
      destruct (run_returned setup cli w code' w' Hl Hsome Hrun) as [Hh Hc].
      split; [exact Hh|]. rewrite Hc, Hh.
      destruct (after_plugins_monotone (files cli) (scheduled cli (handler w))
                  (handler w)) as [He' Hw'].
      transitivity (exit_code_of final); [|reflexivity].
      apply status_exit_code; subst final; lia. }
    split; [exact Hret|].
    intros Hall Hcore.
    destruct (run_returns setup cli w Hl Hsome Hall Hcore) as (code' & w' & Hrun).
    destruct (Hret code' w' Hrun) as [Hh ->].
    exists w'. now split.
Qed.

Lemma exit_code_priority_witness :
  (exists w',
     run (Sample.setup_of [Sample.Quiet]) (Sample.cli_of [Sample.Quiet] [])
         (mkWorld (mkErrorHandler 5 0 (fun s => [s]) []) [] [] [])
       = (Normal 2, w') /\
     errors (handler w') = 5) /\
  (exists w',
     run (Sample.setup_of [Sample.Paths; Sample.Metadata])
         (Sample.cli_of [Sample.Paths] [Sample.Metadata]) boot
       = (Normal 3, w') /\
     errors (handler w') = 0 /\ warnings (handler w') = 2).
Proof.
  split.
  - destruct (exit_code_priority (Sample.setup_of [Sample.Quiet])
                (Sample.cli_of [Sample.Quiet] [])
                (mkWorld (mkErrorHandler 5 0 (fun s => [s]) []) [] [] []))
      as (_ & _ & H); [simpl; lia|simpl; lia|].
    destruct H as [_ H]; [reflexivity|discriminate|].
    destruct H as (w' & Hrun & Hh);
      [repeat constructor|left; reflexivity|].
    exists w'. split; [exact Hrun|]. rewrite Hh. reflexivity.
  - destruct (exit_code_priority (Sample.setup_of [Sample.Paths; Sample.Metadata])
                (Sample.cli_of [Sample.Paths] [Sample.Metadata]) boot)
      as (_ & _ & H); [simpl; lia|simpl; lia|].
    destruct H as [_ H]; [reflexivity|discriminate|].
    destruct H as (w' & Hrun & Hh);
      [repeat constructor|left; reflexivity|].
    exists w'. split; [exact Hrun|]. rewrite Hh. split; reflexivity.
Defined.

(** C3.  In a run without [--list-errors], when the serverless phase
    returns with a nonzero error count, the run returns 2 and its
    observation points are exactly those of the serverless plugins:
    the server core is never started and no server plugin is
    instantiated or run. *)
Theorem errors_skip_server_phase
        (env : Env) (setup : Setup) (cli : CLI) (w0 w1 : World) :
  list_errors setup = false ->
  CLI_init env setup boot = (Normal cli, w0) ->
  run_serverless_plugins cli w0 = (Normal tt, w1) ->
  errors (handler w1) <> 0 ->
  exists w',
    bcfg2_lint env setup = (Normal 2, w') /\
    events w' = plugin_events (serverlessplugins cli) /\
    Forall (fun ev => touches_server ev = false) (events w').
Proof.
  intros Hl Hinit Hrun1 Hnz.
  destruct (CLI_init_spec env setup boot) as (w0' & Hinit' & _ & _ & Hev0).
  rewrite Hinit in Hinit'. injection Hinit' as Hcli <-.
  cbn [events boot] in Hev0.
  destruct (run_serverless_spec cli w0)
    as (r & w1' & done & rest & Hrun & Hps & _ & _ & Hev & Hr).
  rewrite Hrun1 in Hrun. injection Hrun as <- <-. subst rest.
  rewrite app_nil_r in Hps. subst done.
  rewrite Hev0 in Hev. cbn [app] in Hev.
  assert (Hne : (is_empty (serverplugins cli)
                 && is_empty (serverlessplugins cli))%bool = false).
  { destruct (serverlessplugins cli) eqn:E.
    - exfalso. apply Hnz.
      unfold run_serverless_plugins, bind, logger_call in Hrun1.
      rewrite E in Hrun1. cbn [for_each] in Hrun1.
      injection Hrun1 as <-. cbn [handler].
      destruct (CLI_init_spec env setup boot) as (w0' & Hinit' & He0 & _).
      rewrite Hinit in Hinit'. now injection Hinit' as _ <-.
    - cbn. apply andb_false_r. }
  destruct (run_skips_server setup cli w0 w1 Hl Hne Hrun1 (or_intror Hnz))
    as (w' & Hrun & _ & Hev').
  exists w'. unfold bcfg2_lint, bind. rewrite Hinit, Hrun.
  assert (Hst : status (handler w1) = 2).
  { unfold status. destruct (Py.truthy (errors (handler w1))) eqn:T;
      [reflexivity|]. apply truthy_false in T. contradiction. }
  rewrite Hst. split; [reflexivity|].
  rewrite Hev', Hev. split; [reflexivity|].
  rewrite Hcli. cbn [serverlessplugins]. unfold plugin_events.
  apply Forall_forall. intros ev Hin.
  apply in_flat_map in Hin as (q & Hq & Hin).
  apply filter_In in Hq as [_ Hq]. apply negb_true_iff in Hq.
  destruct Hin as [<-|[<-|[]]]; exact Hq.
Qed.

Lemma errors_skip_server_phase_witness :
  exists w',
    bcfg2_lint Sample.piped
      (Sample.setup_of [Sample.Groups; Sample.Paths; Sample.Metadata])
      = (Normal 2, w') /\
    events w' =
      plugin_events
        (serverlessplugins
           (Sample.cli_of [Sample.Groups; Sample.Paths] [Sample.Metadata])) /\
    Forall (fun ev => touches_server ev = false) (events w').
Proof.
  apply (errors_skip_server_phase Sample.piped
           (Sample.setup_of [Sample.Groups; Sample.Paths; Sample.Metadata])
           (Sample.cli_of [Sample.Groups; Sample.Paths] [Sample.Metadata])
           (snd (CLI_init Sample.piped
                   (Sample.setup_of [Sample.Groups; Sample.Paths; Sample.Metadata])
                   boot))
           (snd (run_serverless_plugins
                   (Sample.cli_of [Sample.Groups; Sample.Paths] [Sample.Metadata])
                   (snd (CLI_init Sample.piped
                           (Sample.setup_of
                              [Sample.Groups; Sample.Paths; Sample.Metadata])
                           boot))))).
  - reflexivity.
  - vm_compute. reflexivity.
  - vm_compute. reflexivity.
  - vm_compute. discriminate.
Defined.

(** C1, as the source has it.  In either phase, when a plugin's [Run]
    raises after the plugins before it returned, nothing catches the
    exception: the phase raises it and so does [run]; the plugins
    behind the faulty one are neither instantiated nor run (in the
    server phase the core is still shut down on the way out); and the
    handler is the one the findings of the plugins that ran give, the
    fault itself adding nothing to either counter. *)
Theorem plugin_fault_propagates
        (ph : Phase) (setup : Setup) (cli : CLI)
        (ps1 ps2 : list PluginClass) (p : PluginClass) (e : exn)
        (w0 w : World) :
  list_errors setup = false ->
  enters ph cli w0 w ->
  phase_plugins ph cli = ps1 ++ p :: ps2 ->
  Forall (fun q => snd (Run q (files cli)) = Returns) ps1 ->
  snd (Run p (files cli)) = Raises e ->
  exists w',
    run_phase ph cli w = (Raised e, w') /\
    run setup cli w0 = (Raised e, w') /\
    events w' = events w ++ phase_opens ph
                ++ plugin_events (ps1 ++ [p]) ++ phase_closes ph /\
    handler w' = after_plugins (files cli) (handler w) (ps1 ++ [p]).
Proof.
  intros Hl Hin Hps Hall Hp.
  assert (Hcore : core_ready ph cli).
  { destruct ph; [exact I|apply Hin]. }
  destruct (run_phase_raises ph cli ps1 p ps2 e w Hcore Hps Hall Hp)
    as (w' & Hrun & Hh & _ & Hev).
  exists w'. split; [assumption|]. split; [|split; assumption].
  destruct ph; cbn [enters run_phase phase_plugins] in *.
  - subst w0. apply run_serverless_raises; [assumption| |assumption].
    rewrite Hps. destruct ps1; cbn; apply andb_false_r.
  - destruct Hin as (Hrun1 & Hz & _).
    assert (Hne : serverplugins cli <> []).
    { rewrite Hps. now destruct ps1. }
    exact (run_enters_server setup cli w0 w (Raised e) w' Hl Hne Hrun1 Hz Hrun).
Qed.

Lemma plugin_fault_propagates_witness :
  exists w',
    run_phase Serverless
      (Sample.cli_of [Sample.Quiet; Sample.Broken; Sample.Groups] []) boot
      = (Raised (Exception "XMLSyntaxError"), w') /\
    run (Sample.setup_of [Sample.Quiet; Sample.Broken; Sample.Groups])
        (Sample.cli_of [Sample.Quiet; Sample.Broken; Sample.Groups] []) boot
      = (Raised (Exception "XMLSyntaxError"), w') /\
    events w' = events boot ++ phase_opens Serverless
                ++ plugin_events ([Sample.Quiet] ++ [Sample.Broken])
                ++ phase_closes Serverless /\
    handler w' =
      after_plugins
        (files (Sample.cli_of [Sample.Quiet; Sample.Broken; Sample.Groups] []))
        (handler boot) ([Sample.Quiet] ++ [Sample.Broken]).
Proof.
  apply (plugin_fault_propagates Serverless
           (Sample.setup_of [Sample.Quiet; Sample.Broken; Sample.Groups])
           (Sample.cli_of [Sample.Quiet; Sample.Broken; Sample.Groups] [])
           [Sample.Quiet] [Sample.Groups] Sample.Broken
           (Exception "XMLSyntaxError") boot boot).
  - reflexivity.
  - reflexivity.
  - reflexivity.
  - repeat constructor.
  - reflexivity.
Defined.

(** C1, as stated, fails: with the plugins [Broken] and [Groups], in
    this order, the fault of [Broken] ends the run with the exception.
    [Groups], the next plugin of the phase, is never instantiated, the
    error it would report is never counted, and the log holds nothing
    about the fault. *)
Lemma fault_ends_the_run :
  exists w',
    bcfg2_lint Sample.piped (Sample.setup_of [Sample.Broken; Sample.Groups])
      = (Raised (Exception "XMLSyntaxError"), w') /\
    events w' = [EvConstruct Sample.Broken; EvRun Sample.Broken] /\
    errors (handler w') = 0 /\
    logged w' =
      [(DEBUG, "Running lint with plugins: ['Broken', 'Groups']"%string);
       (DEBUG, "Running serverless plugins: ['Broken', 'Groups']"%string);
       (DEBUG, "  Running Broken"%string)].
Proof. eexists. split; [vm_compute; reflexivity|]. repeat split. Qed.

Lemma normpath_absolute path :
  posixpath.isabs path = true -> posixpath.isabs (posixpath.normpath path) = true.
Proof.
  unfold posixpath.isabs, posixpath.normpath. intros H.
  destruct path as [|c path]; [discriminate|]. rewrite H.
  assert (P : forall s, String.prefix "/" (String "/" s) = true).
  { intros s. cbn. now destruct s. }
  destruct (String.prefix "//" (String c path)
            && negb (String.prefix "///" (String c path)))%bool;
    cbn [append]; apply P.
Qed.

Lemma mem_false_relative fs x :
  posixpath.isabs x = true ->
  Forall (fun e => posixpath.isabs e = false) fs ->
  Py.mem x fs = false.
Proof.
  intros Hx Hall. unfold Py.mem.
  induction Hall as [|e fs He _ IH]; [reflexivity|].
  cbn [existsb]. rewrite IH, orb_false_r.
  destruct (String.eqb_spec x e); [congruence|reflexivity].
Qed.

(** C8, as the source has it.  [HandlesFile] is true for every path
    when there is no file list.  With a file list it is true exactly
    when the list holds, as written, one of the four strings derived
    from the path as it is given: the path itself, the path joined to
    the repository, the path made absolute, or the joined path made
    absolute.  The entries of the list are never converted: a path
    given in absolute form is not handled when every entry of the list
    is relative, whatever the repository and the working directory. *)
Theorem HandlesFile_four_forms (repository cwd fname : string) :
  HandlesFile repository cwd None fname = true /\
  (forall fs,
     HandlesFile repository cwd (Some fs) fname = true <->
     exists form, In form (four_forms repository cwd fname) /\ In form fs) /\
  (forall fs,
     posixpath.isabs fname = true ->
     Forall (fun e => posixpath.isabs e = false) fs ->
     HandlesFile repository cwd (Some fs) fname = false).
Proof.
  split; [reflexivity|]. split.
  - intros fs. unfold HandlesFile, four_forms, Py.mem.
    rewrite !orb_true_iff, !existsb_exists. split.
    + intros [[[H|H]|H]|H]; destruct H as (x & Hx & Heq);
        apply String.eqb_eq in Heq; subst x; eexists; (split; [|eassumption]);
        cbn; tauto.
    + intros (form & Hform & Hin).
      cbn in Hform.
      destruct Hform as [<-|[<-|[<-|[<-|[]]]]];
        [left; left; left|left; left; right|left; right|right];
        eexists; (split; [eassumption|apply String.eqb_refl]).
  - intros fs Habs Hrel.
    assert (Hjoin : posixpath.join repository fname = fname).
    { unfold posixpath.join. now rewrite Habs. }
    assert (Hnorm : posixpath.abspath cwd fname = posixpath.normpath fname).
    { unfold posixpath.abspath. now rewrite Habs. }
    unfold HandlesFile. rewrite Hjoin, Hnorm.
    rewrite (mem_false_relative fs fname Habs Hrel).
    rewrite (mem_false_relative fs (posixpath.normpath fname)
               (normpath_absolute fname Habs) Hrel).
    reflexivity.
Qed.

Lemma HandlesFile_four_forms_witness :
  HandlesFile "" "/root" (Some ["Rules/web.xml"; "Bundler/a.xml"]%string)
              "/var/lib/bcfg2/Rules/../Rules/web.xml" = false.
Proof.
  apply (proj2 (proj2 (HandlesFile_four_forms "" "/root"
                         "/var/lib/bcfg2/Rules/../Rules/web.xml"))).
  - reflexivity.
  - repeat constructor.
Defined.

(** C8, as stated, fails: the file list holds the bare relative form
    [Rules/web.xml] and the path is given in its repository-joined
    form, yet [HandlesFile] is false. *)
Lemma HandlesFile_misses_bare_entry :
  same_file "/var/lib/bcfg2" "/root"
            "/var/lib/bcfg2/Rules/web.xml" "Rules/web.xml" /\
  HandlesFile "/var/lib/bcfg2" "/root" (Some ["Rules/web.xml"%string])
              "/var/lib/bcfg2/Rules/web.xml" = false.
Proof.
  split; [|reflexivity].
  exists "Rules/web.xml"%string. split.
  - right. left. reflexivity.
  - left. reflexivity.
Qed.

(* ================================================================== *)
(** ** Concrete runs *)
(* ================================================================== *)

(** One serverless plugin reports a [dup-group] error, a server plugin
    is loaded as well: the server phase is skipped, the summary is
    printed and the exit code is 2. *)
Example run_with_one_error :
  exists w,
    bcfg2_lint Sample.piped (Sample.setup_of [Sample.Groups; Sample.Metadata])
      = (Normal 2, w) /\
    stdout w =
      ["Serverless plugins encountered errors, skipping server plugins"%string;
       "1 errors"%string; "0 warnings"%string] /\
    events w = [EvConstruct Sample.Groups; EvRun Sample.Groups].
Proof. eexists. split; [vm_compute; reflexivity|]. split; reflexivity. Qed.

(** One plugin that declares nothing and finds nothing: exit code 0 and
    nothing printed. *)
Example run_clean :
  exists w,
    bcfg2_lint Sample.piped (Sample.setup_of [Sample.Quiet]) = (Normal 0, w) /\
    stdout w = [].
Proof. eexists. split; [vm_compute; reflexivity|]. reflexivity. Qed.

(** Warnings only, with the server phase entered and left: exit code 3. *)
Example run_with_warnings :
  exists w,
    bcfg2_lint Sample.piped (Sample.setup_of [Sample.Paths; Sample.Metadata])
      = (Normal 3, w) /\
    stdout w = ["0 errors"%string; "2 warnings"%string] /\
    events w =
      [EvConstruct Sample.Paths; EvRun Sample.Paths; EvCoreStart;
       EvConstruct Sample.Metadata; EvRun Sample.Metadata; EvCoreShutdown].
Proof. eexists. split; [vm_compute; reflexivity|]. split; reflexivity. Qed.

(** [--list-errors]: the table of kinds, in registration order, and
    exit code 0. *)
Example run_list_errors_table :
  exists w,
    bcfg2_lint Sample.piped
      (mkSetup true false false (Some [("dup-group", "warning")])
               [Sample.Groups; Sample.Metadata])
      = (Normal 0, w) /\
    stdout w =
      [(Py.ljust 35 "Error name" ++ " " ++ Py.ljust 35 "Handler")%string;
       (Py.ljust 35 "dup-group" ++ " " ++ Py.ljust 35 "warn")%string;
       (Py.ljust 35 "stale-path" ++ " " ++ Py.ljust 35 "warn")%string] /\
    events w = [].
Proof. eexists. split; [vm_compute; reflexivity|]. split; reflexivity. Qed.

(** A message that starts with white space, on a terminal twenty
    columns wide: the first line carries the prefix and no indent, the
    others the indent of the wrapper. *)
Example narrow_rendering :
  logged (snd ((get_errorhandler Sample.narrow (Sample.setup_of []) ;;
                error ("   group web is defined in two files" ++ NL ++ NL ++
                       "remove one of them")) boot)) =
  [(ERROR, "ERROR: group web is"%string);
   (ERROR, "  defined in two"%string);
   (ERROR, "  files"%string);
   (ERROR, "  remove one of them"%string)].
Proof. reflexivity. Qed.

(** Without a terminal the lines pass through; only the first is
    stripped. *)
Example piped_rendering :
  logged (snd ((get_errorhandler Sample.piped (Sample.setup_of []) ;;
                warn ("  first line" ++ NL ++ "  second line")) boot)) =
  [(WARNING, "WARNING: first line"%string); (WARNING, "  second line"%string)].
Proof. reflexivity. Qed.

Example abspath_normalises :
  posixpath.abspath "/home/u" "a/../b/./c.xml" = "/home/u/b/c.xml"%string /\
  posixpath.join "/var/lib/bcfg2" "Rules/a.xml" = "/var/lib/bcfg2/Rules/a.xml"%string /\
  posixpath.join "/var/lib/bcfg2" "/etc/a.xml" = "/etc/a.xml"%string.
Proof. repeat split. Qed.

Example splitlines_examples :
  Py.splitlines ("ab" ++ NL ++ NL ++ "cd") = ["ab"; ""; "cd"]%string /\
  Py.splitlines ("ab" ++ NL) = ["ab"%string] /\
  Py.splitlines "" = [] /\
  Py.splitlines (String Py.CR (String Py.LF "x")) = [""; "x"]%string.
Proof. repeat split. Qed.

(* ================================================================== *)
(** ** Further properties of the registry *)
(* ================================================================== *)

Lemma register_item_get k t item :
  errortypes_get k (register_item t item) =
  match errortypes_get k t with
  | Some f => Some f
  | None => if String.eqb k (fst item)
            then Some (handler_of_action (snd item)) else None
  end.
Proof.
  unfold register_item.
  destruct (errortypes_get (fst item) t) as [g|] eqn:E.
  - destruct (errortypes_get k t) eqn:E'; [reflexivity|].
    destruct (String.eqb_spec k (fst item)); [congruence|reflexivity].
  - rewrite errortypes_get_app. cbn [errortypes_get].
    destruct (errortypes_get k t); reflexivity.
Qed.

Lemma register_all_get k d t :
  errortypes_get k (register_all t d) =
  match errortypes_get k t with
  | Some f => Some f
  | None => option_map handler_of_action (items_get k d)
  end.
Proof.
  revert t. induction d as [|[k' a] d IH]; intros t.
  - cbn. now destruct (errortypes_get k t).
  - change (register_all t ((k', a) :: d))
      with (register_all (register_item t (k', a)) d).
    rewrite IH, register_item_get. cbn [fst snd items_get].
    destruct (errortypes_get k t); [reflexivity|].
    destruct (String.eqb k k'); reflexivity.
Qed.

Lemma errortypes_get_None k t :
  errortypes_get k t = None -> ~ In k (map fst t).
Proof.
  induction t as [|[k' f] t IH]; cbn; [tauto|].
  destruct (String.eqb_spec k k'); [discriminate|].
  intros H [Hk|Hk]; [congruence|now apply IH].
Qed.

Lemma register_item_NoDup t item :
  NoDup (map fst t) -> NoDup (map fst (register_item t item)).
Proof.
  intros H. unfold register_item.
  destruct (errortypes_get (fst item) t) eqn:E; [assumption|].
  rewrite map_app. apply NoDup_app; [assumption| |].
  - cbn. constructor; [intros []|constructor].
  - intros a Ha [<-|[]]. cbn in Ha. now apply (errortypes_get_None _ _ E).
Qed.

Lemma register_all_NoDup d t :
  NoDup (map fst t) -> NoDup (map fst (register_all t d)).
Proof.
  revert t. induction d as [|item d IH]; intros t H; [assumption|].
  apply IH. now apply register_item_NoDup.
Qed.

Lemma register_all_app t d1 d2 :
  register_all t (d1 ++ d2) = register_all (register_all t d1) d2.
Proof. unfold register_all. apply fold_left_app. Qed.

(** The registry only grows at its end. *)
Lemma register_all_extends d t :
  exists added,
    register_all t d = t ++ added /\
    forall k, In k (map fst added) -> In k (map fst d).
Proof.
  revert t. induction d as [|item d IH]; intros t.
  - exists []. cbn. now rewrite app_nil_r.
  - change (register_all t (item :: d))
      with (register_all (register_item t item) d).
    destruct (IH (register_item t item)) as (added & Hadd & Hkeys).
    unfold register_item in Hadd |- *.
    destruct (errortypes_get (fst item) t).
    + exists added. split; [assumption|]. intros k Hk. right. now apply Hkeys.
    + exists ((fst item, handler_of_action (snd item)) :: added).
      rewrite Hadd, <- app_assoc. split; [reflexivity|].
      intros k [<-|Hk]; [now left|right; now apply Hkeys].
Qed.

(** Nothing is added when every kind of the dict is registered. *)
Lemma register_all_known d t :
  (forall item, In item d -> errortypes_get (fst item) t <> None) ->
  register_all t d = t.
Proof.
  induction d as [|item d IH]; intros H; [reflexivity|].
  change (register_all t (item :: d))
    with (register_all (register_item t item) d).
  unfold register_item.
  destruct (errortypes_get (fst item) t) eqn:E.
  - apply IH. intros it Hit. apply H. now right.
  - exfalso. apply (H item); [now left|assumption].
Qed.

(** What each handler operation does to the registry; none of them
    prints or leaves an observation point. *)
Lemma do_op_registry o w :
  exists w',
    do_op o w = (Normal tt, w') /\
    errortypes (handler w') =
      match o with
      | OpRegisterErrors d => register_all (errortypes (handler w)) d
      | _ => errortypes (handler w)
      end /\
    _wrapper (handler w') = _wrapper (handler w) /\
    stdout w' = stdout w /\ events w' = events w.
Proof.
  destruct o as [errs|err msg|msg|msg|msg]; cbn [do_op]; eexists.
  - rewrite RegisterErrors_spec. repeat split.
  - rewrite dispatch_spec. split; [reflexivity|]. cbv zeta. cbn [handler stdout events].
    now rewrite count_errortypes, count_wrapper.
  - rewrite error_spec. repeat split.
  - change (warn msg w) with (call_handler h_warn msg w).
    rewrite call_handler_spec. repeat split.
  - unfold debug. rewrite _log_spec. repeat split.
Qed.

(** X1.  Lookup after registration: [RegisterErrors] returns, and a
    kind then has the handler it had before or, when it was new, the
    handler of the action the dict gives it; a kind that is neither
    registered nor in the dict stays unregistered. *)
Theorem RegisterErrors_lookup (d : list (string * string)) (w : World) :
  exists w',
    RegisterErrors d w = (Normal tt, w') /\
    forall k,
      errortypes_get k (errortypes (handler w')) =
      match errortypes_get k (errortypes (handler w)) with
      | Some f => Some f
      | None => option_map handler_of_action (items_get k d)
      end.
Proof.
  eexists. rewrite RegisterErrors_spec. split; [reflexivity|].
  intros k. cbn [with_errortypes handler errortypes]. apply register_all_get.
Qed.

(** X2.  The registry never holds a kind twice: from the handler that
    [ErrorHandler.__init__] builds, with any initial dict, any sequence
    of handler operations leaves the keys of [errortypes] distinct. *)
Theorem errortypes_keys_distinct
        (wrap : Z -> string -> list string) (ts : option (Z * Z))
        (errs : option (list (string * string))) (ops : list Op) (w : World) :
  exists w',
    (ErrorHandler_init wrap ts errs ;; for_each ops do_op) w = (Normal tt, w') /\
    NoDup (map fst (errortypes (handler w'))).
Proof.
  unfold bind. rewrite ErrorHandler_init_spec.
  match goal with |- context [for_each ops do_op ?w1] =>
    assert (H1 : NoDup (map fst (errortypes (handler w1))));
    [cbn [handler errortypes]; apply register_all_NoDup; constructor|];
    generalize dependent w1 end.
  induction ops as [|o ops IH]; intros w1 H1.
  - exists w1. now split.
  - cbn [for_each]. unfold bind.
    destruct (do_op_registry o w1) as (w2 & Hop & Ht & _).
    rewrite Hop. apply IH. rewrite Ht.
    destruct o; try assumption. now apply register_all_NoDup.
Qed.

(** X3.  Dicts that share no kind can be registered in either order:
    when no kind is declared by both, every kind ends with the same
    handler whichever of the two dicts is registered first.  (For a
    kind both declare, the order decides: the first wins.) *)
Theorem RegisterErrors_disjoint_order
        (d1 d2 : list (string * string)) (w : World) :
  (forall k, items_get k d1 = None \/ items_get k d2 = None) ->
  forall k,
    errortypes_get k
      (errortypes (handler (snd ((RegisterErrors d1 ;; RegisterErrors d2) w)))) =
    errortypes_get k
      (errortypes (handler (snd ((RegisterErrors d2 ;; RegisterErrors d1) w)))).
Proof.
  intros Hdisj k. unfold bind. rewrite !RegisterErrors_spec.
  cbn [snd with_errortypes handler errortypes].
  rewrite !register_all_get.
  destruct (errortypes_get k (errortypes (handler w))); [reflexivity|].
  destruct (Hdisj k) as [H|H]; rewrite H; cbn [option_map].
  - now destruct (items_get k d2).
  - now destruct (items_get k d1).
Qed.

Lemma RegisterErrors_disjoint_order_witness :
  errortypes_get "stale-path"
    (errortypes (handler (snd ((RegisterErrors [("dup-group", "error")] ;;
                                RegisterErrors [("stale-path", "warning")]) boot)))) =
  errortypes_get "stale-path"
    (errortypes (handler (snd ((RegisterErrors [("stale-path", "warning")] ;;
                                RegisterErrors [("dup-group", "error")]) boot)))).
Proof.
  apply (RegisterErrors_disjoint_order [("dup-group", "error")]
           [("stale-path", "warning")] boot).
  intros k. simpl.
  destruct (String.eqb k "dup-group") eqn:E.
  - right. apply String.eqb_eq in E. subst k. reflexivity.
  - left. reflexivity.
Defined.

(** X4.  A dict all of whose kinds were declared by an earlier dict
    changes nothing, whatever its actions; in particular registering
    a dict twice is registering it once. *)
Theorem RegisterErrors_again (d d' : list (string * string)) (w : World) :
  (forall k a', In (k, a') d' -> exists a, In (k, a) d) ->
  (RegisterErrors d ;; RegisterErrors d') w = RegisterErrors d w.
Proof.
  intros Hsub. unfold bind. rewrite !RegisterErrors_spec.
  cbn [with_errortypes handler errortypes errors warnings _wrapper logged
       stdout events].
  rewrite (register_all_known d'); [reflexivity|].
  intros [k a'] Hin. cbn [fst].
  destruct (Hsub k a' Hin) as (a & Ha).
  now apply (register_all_registers k a).
Qed.

Lemma RegisterErrors_again_witness :
  (RegisterErrors [("dup-group", "error"); ("stale-path", "warning")] ;;
   RegisterErrors [("stale-path", "error"); ("dup-group", "silent")]) boot
  = RegisterErrors [("dup-group", "error"); ("stale-path", "warning")] boot.
Proof.
  apply (RegisterErrors_again
           [("dup-group", "error"); ("stale-path", "warning")]
           [("stale-path", "error"); ("dup-group", "silent")] boot).
  intros k a' [H|[H|[]]]; injection H as <- _.
  - exists "warning"%string. simpl. right. left. reflexivity.
  - exists "error"%string. simpl. left. reflexivity.
Defined.

(** X5.  [RegisterErrors] only appends: the old registry is a prefix
    of the new one, in its order, the appended kinds come from the
    dict, and counters, wrapper, log, standard output and observation
    points are left alone. *)
Theorem RegisterErrors_appends (d : list (string * string)) (w : World) :
  exists w' added,
    RegisterErrors d w = (Normal tt, w') /\
    errortypes (handler w') = errortypes (handler w) ++ added /\
    (forall k, In k (map fst added) -> In k (map fst d)) /\
    errors (handler w') = errors (handler w) /\
    warnings (handler w') = warnings (handler w) /\
    _wrapper (handler w') = _wrapper (handler w) /\
    logged w' = logged w /\ stdout w' = stdout w /\ events w' = events w.
Proof.
  destruct (register_all_extends d (errortypes (handler w))) as (added & Hadd & Hkeys).
  eexists. exists added. rewrite RegisterErrors_spec.
  split; [reflexivity|]. cbn [with_errortypes handler errortypes].
  repeat split; assumption.
Qed.

(** X6.  The configuration wins over the plugins: a kind to which the
    initial dict of [ErrorHandler.__init__] gives an action keeps the
    handler of that action through every later operation, whatever the
    plugins register for it. *)
Theorem configured_action_sticks
        (wrap : Z -> string -> list string) (ts : option (Z * Z))
        (cfg : list (string * string)) (k a : string)
        (ops : list Op) (w : World) :
  items_get k cfg = Some a ->
  exists w',
    (ErrorHandler_init wrap ts (Some cfg) ;; for_each ops do_op) w
      = (Normal tt, w') /\
    errortypes_get k (errortypes (handler w')) = Some (handler_of_action a).
Proof.
  intros Hcfg. unfold bind. rewrite ErrorHandler_init_spec.
  match goal with |- context [for_each ops do_op ?w1] =>
    assert (H1 : errortypes_get k (errortypes (handler w1))
                 = Some (handler_of_action a));
    [cbn [handler errortypes]; rewrite register_all_get; cbn; now rewrite Hcfg|];
    generalize dependent w1 end.
  induction ops as [|o ops IH]; intros w1 H1.
  - exists w1. now split.
  - cbn [for_each]. unfold bind.
    destruct (do_op_registry o w1) as (w2 & Hop & Ht & _).
    rewrite Hop. apply IH. rewrite Ht.
    destruct o; try assumption. now apply register_all_keeps.
Qed.

Lemma configured_action_sticks_witness :
  exists w',
    (ErrorHandler_init Sample.greedy_wrap None
       (Some [("dup-group", "warning")]) ;;
     for_each [OpRegisterErrors [("dup-group", "error")];
               OpDispatch "dup-group" "group web is defined twice"] do_op) boot
      = (Normal tt, w') /\
    errortypes_get "dup-group" (errortypes (handler w'))
      = Some (handler_of_action "warning").
Proof.
  apply (configured_action_sticks Sample.greedy_wrap None
           [("dup-group", "warning")] "dup-group" "warning").
  reflexivity.
Defined.

(* ================================================================== *)
(** ** Further properties of dispatch and rendering *)
(* ================================================================== *)

(** X7.  Dispatching teaches the registry nothing: any sequence of
    dispatches returns and leaves the registry, the wrapper, standard
    output and the observation points as they were, so a kind that was
    unknown before is unknown after and is reported as unknown again. *)
Theorem dispatch_keeps_registry (evs : list (string * string)) (w : World) :
  exists w',
    dispatch_all evs w = (Normal tt, w') /\
    errortypes (handler w') = errortypes (handler w) /\
    _wrapper (handler w') = _wrapper (handler w) /\
    stdout w' = stdout w /\ events w' = events w.
Proof.
  destruct (dispatch_all_spec evs w) as (w' & Hrun & Hh & Hs & Hev).
  exists w'. rewrite Hh, tally_errortypes, tally_wrapper. repeat split; assumption.
Qed.

(** X8.  A dispatch of a registered kind returns, counts for the
    handler the kind is registered with ([error]: one more error,
    [warn]: one more warning, [debug]: neither), logs the rendered
    message at the level and with the prefix of that handler, and then
    logs the kind in parentheses at debug level. *)
Theorem dispatch_registered_kind (err msg : string) (f : Handler) (w : World) :
  errortypes_get err (errortypes (handler w)) = Some f ->
  exists w',
    dispatch err msg w = (Normal tt, w') /\
    errors (handler w') = errors (handler w) + (if Handler_eqb f h_error then 1 else 0) /\
    warnings (handler w') = warnings (handler w) + (if Handler_eqb f h_warn then 1 else 0) /\
    logged w' =
      logged w
      ++ map (pair (Handler_level f))
             (rendered (_wrapper (handler w)) (Handler_prefix f) msg)
      ++ [(DEBUG, ("    (" ++ err ++ ")")%string)].
Proof.
  intros Hreg. eexists. rewrite dispatch_spec. split; [reflexivity|].
  cbv zeta. unfold resolve. rewrite Hreg. cbn [handler logged].
  rewrite count_errors, count_warnings. repeat split.
Qed.

Lemma dispatch_registered_kind_witness :
  exists w',
    dispatch "stale-path" "path /etc/old is stale"
      (with_errortypes [("stale-path", h_warn)] boot) = (Normal tt, w') /\
    errors (handler w') =
      errors (handler (with_errortypes [("stale-path", h_warn)] boot))
      + (if Handler_eqb h_warn h_error then 1 else 0) /\
    warnings (handler w') =
      warnings (handler (with_errortypes [("stale-path", h_warn)] boot))
      + (if Handler_eqb h_warn h_warn then 1 else 0) /\
    logged w' =
      logged (with_errortypes [("stale-path", h_warn)] boot)
      ++ map (pair (Handler_level h_warn))
             (rendered (_wrapper (handler (with_errortypes [("stale-path", h_warn)] boot)))
                       (Handler_prefix h_warn) "path /etc/old is stale")
      ++ [(DEBUG, ("    (" ++ "stale-path" ++ ")")%string)].
Proof.
  apply (dispatch_registered_kind "stale-path" "path /etc/old is stale" h_warn
           (with_errortypes [("stale-path", h_warn)] boot)).
  reflexivity.
Defined.

(** X9.  An empty message is counted but not shown: whatever the kind
    and the wrapper, a dispatch with the empty string changes the
    counters as for any message, and the only record it logs is the
    trailer (the kind in parentheses, or the unknown-kind warning); no
    line with the severity prefix appears. *)
Theorem dispatch_empty_message (err : string) (w : World) :
  exists w',
    dispatch err "" w = (Normal tt, w') /\
    handler w' = count (resolve (errortypes (handler w)) err) (handler w) /\
    logged w' =
      logged w ++
      [match errortypes_get err (errortypes (handler w)) with
       | Some _ => (DEBUG, ("    (" ++ err ++ ")")%string)
       | None => (WARNING, ("Unknown error " ++ err)%string)
       end].
Proof.
  eexists. rewrite dispatch_spec. split; [reflexivity|].
  cbv zeta. cbn [handler logged]. split; reflexivity.
Qed.

(** X10.  Without a terminal size, or with a width that is not
    positive, the handler never calls the wrapper of [textwrap]:
    [_log] emits one record per line of the message, the first
    stripped on the left behind the prefix, the others unchanged. *)
Theorem log_passes_through
        (wrap : Z -> string -> list string) (ts : option (Z * Z))
        (errs : option (list (string * string)))
        (msg prefix : string) (lvl : Level) (w0 : World) :
  match ts with
  | None => True
  | Some (width, _) => width <= 0
  end ->
  exists w,
    ErrorHandler_init wrap ts errs w0 = (Normal tt, w) /\
    _log msg lvl prefix w =
      (Normal tt,
       mkWorld (handler w)
               (logged w ++ map (pair lvl) (mark_first prefix (Py.splitlines msg)))
               (stdout w) (events w)).
Proof.
  intros Hts. eexists. rewrite ErrorHandler_init_spec. split; [reflexivity|].
  rewrite _log_spec. unfold rendered. cbn [handler _wrapper logged stdout events].
  rewrite (choose_wrapper_passes wrap ts Hts), concat_map_singleton. reflexivity.
Qed.

Lemma log_passes_through_witness :
  exists w,
    ErrorHandler_init Sample.greedy_wrap (Some (0, 0)) None boot = (Normal tt, w) /\
    _log ("  group web is defined in two files" ++ NL ++ "  remove one")
         ERROR "ERROR: " w =
      (Normal tt,
       mkWorld (handler w)
               (logged w ++
                map (pair ERROR)
                    (mark_first "ERROR: "
                       (Py.splitlines
                          ("  group web is defined in two files" ++ NL ++
                           "  remove one"))))
               (stdout w) (events w)).
Proof.
  apply (log_passes_through Sample.greedy_wrap (Some (0, 0)) None
           ("  group web is defined in two files" ++ NL ++ "  remove one")
           "ERROR: " ERROR boot).
  simpl. lia.
Defined.

(* ================================================================== *)
(** ** The size of the terminal *)
(* ================================================================== *)

(** X11.  When standard output is not a terminal, [get_termsize]
    returns [None] without looking at any descriptor or variable, and
    the handler built on it passes every line through. *)
Theorem get_termsize_not_a_tty (t : Terminal) :
  stdout_isatty t = false ->
  get_termsize t = Normal None /\
  forall wrap errs w,
    exists w',
      ErrorHandler_new wrap t errs w = (Normal tt, w') /\
      forall s, _wrapper (handler w') s = [s].
Proof.
  intros Htty.
  assert (H : get_termsize t = Normal None).
  { unfold get_termsize. now rewrite Htty. }
  split; [assumption|].
  intros wrap errs w. unfold ErrorHandler_new. rewrite H.
  eexists. rewrite ErrorHandler_init_spec. split; reflexivity.
Qed.

Lemma get_termsize_not_a_tty_witness :
  get_termsize Sample2.pipe = Normal None /\
  forall wrap errs w,
    exists w',
      ErrorHandler_new wrap Sample2.pipe errs w = (Normal tt, w') /\
      forall s, _wrapper (handler w') s = [s].
Proof. apply (get_termsize_not_a_tty Sample2.pipe). reflexivity. Defined.

(** X12.  On a terminal, the first source that answers the ioctl
    decides: descriptor 0, else 1, else 2, else the controlling
    terminal.  Its (rows, columns) come back as (columns, rows); the
    environment is not consulted and nothing is raised. *)
Theorem get_termsize_first_answer (t : Terminal) (fd rows columns : Z) :
  stdout_isatty t = true ->
  tiocgwinsz t fd = Some (rows, columns) ->
  fd = 0 \/
  (fd = 1 /\ tiocgwinsz t 0 = None) \/
  (fd = 2 /\ tiocgwinsz t 0 = None /\ tiocgwinsz t 1 = None) \/
  (open_ctermid t = Some fd /\ tiocgwinsz t 0 = None /\
   tiocgwinsz t 1 = None /\ tiocgwinsz t 2 = None) ->
  get_termsize t = Normal (Some (columns, rows)).
Proof.
  intros Htty Hfd Hfirst. unfold get_termsize, _ioctl_GWINSZ, py_or.
  rewrite Htty. cbn [negb].
  destruct Hfirst as [->|[[-> H0]|[(-> & H0 & H1)|(Hc & H0 & H1 & H2)]]].
  - now rewrite Hfd.
  - now rewrite H0, Hfd.
  - now rewrite H0, H1, Hfd.
  - now rewrite H0, H1, H2, Hc, Hfd.
Qed.

Lemma get_termsize_first_answer_witness :
  get_termsize Sample2.xterm = Normal (Some (80, 24)).
Proof.
  apply (get_termsize_first_answer Sample2.xterm 1 24 80).
  - reflexivity.
  - reflexivity.
  - right. left. split; reflexivity.
Defined.

(** X13.  On a terminal where no ioctl answers, the size comes from
    the environment: with [LINES] or [COLUMNS] unset the result is
    [None]; with both set to integers the result is (COLUMNS, LINES). *)
Theorem get_termsize_from_environ (t : Terminal) :
  stdout_isatty t = true ->
  (forall fd, tiocgwinsz t fd = None) ->
  (environ t "LINES" = None \/ environ t "COLUMNS" = None ->
   get_termsize t = Normal None) /\
  (forall lines columns height width,
     environ t "LINES" = Some lines -> environ t "COLUMNS" = Some columns ->
     int_of_str t lines = Some height -> int_of_str t columns = Some width ->
     get_termsize t = Normal (Some (width, height))).
Proof.
  intros Htty Hno.
  assert (H : get_termsize t =
              match environ t "LINES", environ t "COLUMNS" with
              | Some lines, Some columns =>
                  match int_of_str t columns with
                  | None => Raised (Exception "ValueError")
                  | Some width =>
                      match int_of_str t lines with
                      | None => Raised (Exception "ValueError")
                      | Some height => Normal (Some (width, height))
                      end
                  end
              | _, _ => Normal None
              end).
  { unfold get_termsize, _ioctl_GWINSZ, py_or. rewrite Htty, !Hno. cbn [negb].
    destruct (open_ctermid t); [rewrite Hno|]; reflexivity. }
  rewrite H. split.
  - intros [Hl|Hc].
    + now rewrite Hl.
    + rewrite Hc. now destruct (environ t "LINES").
  - intros lines columns height width Hl Hc Hh Hw.
    now rewrite Hl, Hc, Hw, Hh.
Qed.

Lemma get_termsize_from_environ_witness :
  (environ (Sample2.by_environ "50" "132") "LINES" = None \/
   environ (Sample2.by_environ "50" "132") "COLUMNS" = None ->
   get_termsize (Sample2.by_environ "50" "132") = Normal None) /\
  (forall lines columns height width,
     environ (Sample2.by_environ "50" "132") "LINES" = Some lines ->
     environ (Sample2.by_environ "50" "132") "COLUMNS" = Some columns ->
     int_of_str (Sample2.by_environ "50" "132") lines = Some height ->
     int_of_str (Sample2.by_environ "50" "132") columns = Some width ->
     get_termsize (Sample2.by_environ "50" "132") = Normal (Some (width, height))).
Proof.
  apply (get_termsize_from_environ (Sample2.by_environ "50" "132")).
  - reflexivity.
  - reflexivity.
Defined.

(** X14.  An environment variable that [int] rejects is fatal: on a
    terminal where no ioctl answers and both [LINES] and [COLUMNS] are
    set, [get_termsize] raises [ValueError] as soon as one of the two
    is not an integer, and the constructor of the handler raises it in
    turn, leaving the process as it was. *)
Theorem get_termsize_bad_environ
        (t : Terminal) (lines columns : string)
        (wrap : Z -> string -> list string)
        (errs : option (list (string * string))) (w : World) :
  stdout_isatty t = true ->
  (forall fd, tiocgwinsz t fd = None) ->
  environ t "LINES" = Some lines ->
  environ t "COLUMNS" = Some columns ->
  int_of_str t lines = None \/ int_of_str t columns = None ->
  get_termsize t = Raised (Exception "ValueError") /\
  ErrorHandler_new wrap t errs w = (Raised (Exception "ValueError"), w).
Proof.
  intros Htty Hno Hl Hc Hbad.
  assert (H : get_termsize t = Raised (Exception "ValueError")).
  { unfold get_termsize, _ioctl_GWINSZ, py_or. rewrite Htty, !Hno. cbn [negb].
    assert (Hd : match open_ctermid t with
                 | Some fd => tiocgwinsz t fd
                 | None => None
                 end = None).
    { destruct (open_ctermid t); [apply Hno|reflexivity]. }
    rewrite Hd, Hl, Hc.
    destruct Hbad as [Hb|Hb]; rewrite Hb;
      destruct (int_of_str t columns); reflexivity. }
  split; [assumption|]. unfold ErrorHandler_new. now rewrite H.
Qed.

Lemma get_termsize_bad_environ_witness :
  get_termsize (Sample2.by_environ "50" "wide") = Raised (Exception "ValueError") /\
  ErrorHandler_new Sample.greedy_wrap (Sample2.by_environ "50" "wide") None boot
    = (Raised (Exception "ValueError"), boot).
Proof.
  apply (get_termsize_bad_environ (Sample2.by_environ "50" "wide") "50" "wide").
  - reflexivity.
  - reflexivity.
  - reflexivity.
  - reflexivity.
  - right. reflexivity.
Defined.

(* ================================================================== *)
(** ** Building the runner *)
(* ================================================================== *)

(** The loop that loads the lint plugins returns when no import raises
    anything but [ImportError] or [AttributeError]; it only logs. *)
Lemma autoload_returns import_lint plugins lint_plugins w :
  (forall name e, In name plugins -> import_lint name <> OtherException e) ->
  exists w',
    autoload import_lint plugins lint_plugins w =
      (Normal (lint_plugins ++ imported import_lint plugins), w') /\
    handler w' = handler w /\ stdout w' = stdout w /\ events w' = events w.
Proof.
  revert lint_plugins w.
  induction plugins as [|name rest IH]; intros lp w Hok.
  - exists w. cbn. rewrite app_nil_r. repeat split.
  - assert (Hrest : forall n e, In n rest -> import_lint n <> OtherException e).
    { intros n e Hn. apply Hok. now right. }
    cbn [autoload imported].
    destruct (import_lint name) as [cls| |info|e] eqn:E;
      [| | |exfalso; apply (Hok name e); [now left|assumption]];
      unfold bind, logger_call;
      match goal with |- context [autoload _ _ ?l ?w1] =>
        destruct (IH l w1 Hrest) as (w' & Hrun & Hh & Hs & Hev) end;
      exists w'; rewrite Hrun, <- ?app_assoc; (split; [reflexivity|]);
      cbn [handler stdout events] in *; repeat split; assumption.
Qed.

Lemma filter_split_permutation {A} (f : A -> bool) (l : list A) :
  Permutation (filter (fun x => negb (f x)) l ++ filter f l) l.
Proof.
  induction l as [|x l IH]; cbn [filter]; [constructor|].
  destruct (f x); cbn [negb app].
  - apply Permutation_sym, Permutation_cons_app. now apply Permutation_sym.
  - now constructor.
Qed.

Lemma mem_In x fs : Py.mem x fs = true <-> In x fs.
Proof.
  unfold Py.mem. rewrite existsb_exists. split.
  - intros (y & Hy & Heq). apply String.eqb_eq in Heq. now subst.
  - intros H. exists x. split; [assumption|apply String.eqb_refl].
Qed.

(** X15.  The outcome of the constructor, when no import raises
    anything but the two exceptions that are caught.  If
    [get_termsize] raises, the constructor raises the same exception
    after the loading of the plugins, and no handler is installed.
    Otherwise it returns: the counters of the new handler are zero,
    the file list is the stripped lines of standard input with
    [--stdin] and none without, and the serverless list followed by
    the server list is a rearrangement of the selected plugins and the
    loaded ones, each in the list of its kind. *)
Theorem CLI_new_outcome
        (sys : System) (plugins : list string) (setup : Setup) (w : World) :
  (forall name e, In name plugins -> sys_import sys name <> OtherException e) ->
  match get_termsize (sys_terminal sys) with
  | Raised e =>
      exists w',
        CLI_new sys plugins setup w = (Raised e, w') /\
        handler w' = handler w /\ stdout w' = stdout w /\ events w' = events w
  | Normal _ =>
      exists cli w',
        CLI_new sys plugins setup w = (Normal cli, w') /\
        errors (handler w') = 0 /\ warnings (handler w') = 0 /\
        files cli =
          (if stdin setup then Some (map Py.strip (sys_stdin sys)) else None) /\
        Permutation (serverlessplugins cli ++ serverplugins cli)
                    (lint_plugins setup ++ imported (sys_import sys) plugins) /\
        Forall (fun p => is_ServerPlugin p = false) (serverlessplugins cli) /\
        Forall (fun p => is_ServerPlugin p = true) (serverplugins cli)
  end.
Proof.
  intros Hok.
  destruct (autoload_returns (sys_import sys) plugins (lint_plugins setup) w Hok)
    as (w1 & Hload & Hh1 & Hs1 & Hev1).
  destruct (get_termsize (sys_terminal sys)) as [ts|e] eqn:Hprobe.
  - unfold CLI_new, bind at 1. rewrite Hload.
    unfold bind at 1, logger_call. unfold bind at 1.
    unfold ErrorHandler_new. rewrite Hprobe, ErrorHandler_init_spec. unfold ret.
    eexists. eexists. split; [reflexivity|].
    cbn [handler errors warnings files serverlessplugins serverplugins].
    split; [reflexivity|]. split; [reflexivity|]. split; [reflexivity|].
    split; [apply filter_split_permutation|].
    split; apply Forall_forall; intros p Hp; apply filter_In in Hp as [_ Hp];
      [now apply negb_true_iff in Hp|assumption].
  - unfold CLI_new, bind at 1. rewrite Hload.
    unfold bind at 1, logger_call. unfold bind at 1.
    unfold ErrorHandler_new. rewrite Hprobe. unfold raise.
    eexists. split; [reflexivity|].
    cbn [handler stdout events]. repeat split; assumption.
Qed.

Lemma CLI_new_outcome_witness :
  exists w',
    CLI_new (Sample2.system "50" "wide") ["Probes"; "Metadata"]%string
            (Sample.setup_of [Sample.Groups]) boot
      = (Raised (Exception "ValueError"), w') /\
    handler w' = handler boot /\ stdout w' = stdout boot /\
    events w' = events boot.
Proof.
  apply (CLI_new_outcome (Sample2.system "50" "wide")
           ["Probes"; "Metadata"]%string (Sample.setup_of [Sample.Groups]) boot).
  intros name e [<-|[<-|[]]]; discriminate.
Defined.

(** X16.  With [--stdin], every line read from standard input names a
    handled file once it is stripped: surrounding white space, the
    newline that [readlines] keeps included, does not prevent the
    match. *)
Theorem stdin_lines_are_handled
        (env : Env) (setup : Setup) (w : World)
        (repository cwd line : string) :
  stdin setup = true ->
  In line (stdin_lines env) ->
  exists cli w',
    CLI_init env setup w = (Normal cli, w') /\
    HandlesFile repository cwd (files cli) (Py.strip line) = true.
Proof.
  intros Hstdin Hin.
  destruct (CLI_init_spec env setup w) as (w' & Hinit & _).
  eexists. exists w'. split; [exact Hinit|].
  cbn [files]. unfold cli_files. rewrite Hstdin. unfold HandlesFile.
  assert (H : Py.mem (Py.strip line) (map Py.strip (stdin_lines env)) = true).
  { apply mem_In. now apply in_map. }
  now rewrite H.
Qed.

Lemma stdin_lines_are_handled_witness :
  exists cli w',
    CLI_init (mkEnv Sample.greedy_wrap None
                [("Rules/web.xml" ++ NL)%string; ("  Bundler/a.xml " ++ NL)%string]
                None)
             (mkSetup false true false None [Sample.Quiet]) boot
      = (Normal cli, w') /\
    HandlesFile "/var/lib/bcfg2" "/root" (files cli)
                (Py.strip ("  Bundler/a.xml " ++ NL)) = true.
Proof.
  apply (stdin_lines_are_handled
           (mkEnv Sample.greedy_wrap None
              [("Rules/web.xml" ++ NL)%string; ("  Bundler/a.xml " ++ NL)%string]
                None)
           (mkSetup false true false None [Sample.Quiet]) boot
           "/var/lib/bcfg2" "/root" ("  Bundler/a.xml " ++ NL)%string).
  - reflexivity.
  - simpl. right. left. reflexivity.
Defined.

(** X17.  Without [--stdin] the runner stores no file list and every
    path is handled; with [--stdin] and nothing on standard input it
    stores an empty list and no path at all is handled. *)
Theorem empty_stdin_handles_nothing
        (env : Env) (setup : Setup) (w : World) :
  exists cli w',
    CLI_init env setup w = (Normal cli, w') /\
    (stdin setup = false ->
     forall repository cwd fname,
       HandlesFile repository cwd (files cli) fname = true) /\
    (stdin setup = true -> stdin_lines env = [] ->
     forall repository cwd fname,
       HandlesFile repository cwd (files cli) fname = false).
Proof.
  destruct (CLI_init_spec env setup w) as (w' & Hinit & _).
  eexists. exists w'. split; [exact Hinit|].
  cbn [files]. unfold cli_files. split.
  - intros ->. reflexivity.
  - intros -> ->. reflexivity.
Qed.

(** X18.  Loading the lint plugins of the server plugins isolates the
    two failures it expects: when no import raises anything but
    [ImportError] or [AttributeError], the loop returns with the
    classes it could import appended in the order of the server
    plugins, logs exactly one record per server plugin, and touches
    neither the handler nor standard output. *)
Theorem autoload_skips_failures
        (import_lint : string -> ImportResult) (plugins : list string)
        (lint_plugins : list PluginClass) (w : World) :
  (forall name e, In name plugins -> import_lint name <> OtherException e) ->
  exists w',
    autoload import_lint plugins lint_plugins w =
      (Normal (lint_plugins ++ imported import_lint plugins), w') /\
    length (logged w') = (length (logged w) + length plugins)%nat /\
    handler w' = handler w /\ stdout w' = stdout w /\ events w' = events w.
Proof.
  revert lint_plugins w.
  induction plugins as [|name rest IH]; intros lp w Hok.
  - exists w. cbn. rewrite app_nil_r, Nat.add_0_r. repeat split.
  - assert (Hrest : forall n e, In n rest -> import_lint n <> OtherException e).
    { intros n e Hn. apply Hok. now right. }
    cbn [autoload imported].
    destruct (import_lint name) as [cls| |info|e] eqn:E.
    + unfold bind, logger_call.
      match goal with |- context [autoload _ _ ?l ?w1] =>
        destruct (IH l w1 Hrest) as (w' & Hrun & Hlen & Hh & Hs & Hev) end.
      exists w'. rewrite Hrun, <- app_assoc. split; [reflexivity|].
      cbn [logged handler stdout events] in *.
      rewrite Hlen, length_app. cbn [length]. repeat split; try assumption. lia.
    + unfold bind, logger_call.
      match goal with |- context [autoload _ _ ?l ?w1] =>
        destruct (IH l w1 Hrest) as (w' & Hrun & Hlen & Hh & Hs & Hev) end.
      exists w'. rewrite Hrun. split; [reflexivity|].
      cbn [logged handler stdout events] in *.
      rewrite Hlen, length_app. cbn [length]. repeat split; try assumption. lia.
    + unfold bind, logger_call.
      match goal with |- context [autoload _ _ ?l ?w1] =>
        destruct (IH l w1 Hrest) as (w' & Hrun & Hlen & Hh & Hs & Hev) end.
      exists w'. rewrite Hrun. split; [reflexivity|].
      cbn [logged handler stdout events] in *.
      rewrite Hlen, length_app. cbn [length]. repeat split; try assumption. lia.
    + exfalso. apply (Hok name e); [now left|assumption].
Qed.

Lemma autoload_skips_failures_witness :
  exists w',
    autoload Sample2.import_lint ["Probes"; "Metadata"; "Cfg"; "Rules"]%string
             [Sample.Groups] boot =
      (Normal ([Sample.Groups] ++
               imported Sample2.import_lint
                        ["Probes"; "Metadata"; "Cfg"; "Rules"]%string), w') /\
    length (logged w') =
      (length (logged boot)
       + length ["Probes"; "Metadata"; "Cfg"; "Rules"]%string)%nat /\
    handler w' = handler boot /\ stdout w' = stdout boot /\
    events w' = events boot.
Proof.
  apply (autoload_skips_failures Sample2.import_lint
           ["Probes"; "Metadata"; "Cfg"; "Rules"]%string [Sample.Groups] boot).
  intros name e [<-|[<-|[<-|[<-|[]]]]]; discriminate.
Defined.

(** X23.  For an absolute path neither the repository nor the working
    directory matters: joining leaves the path as it is, so the answer
    of [HandlesFile] is the same for every repository and directory. *)
Theorem HandlesFile_absolute_path
        (repository cwd repository' cwd' fname : string)
        (files : option (list string)) :
  posixpath.isabs fname = true ->
  HandlesFile repository cwd files fname =
  HandlesFile repository' cwd' files fname.
Proof.
  intros Habs.
  assert (Hjoin : forall r, posixpath.join r fname = fname).
  { intros r. unfold posixpath.join. now rewrite Habs. }
  assert (Habspath : forall c, posixpath.abspath c fname = posixpath.normpath fname).
  { intros c. unfold posixpath.abspath. now rewrite Habs. }
  unfold HandlesFile. now rewrite !Hjoin, !Habspath.
Qed.

Lemma HandlesFile_absolute_path_witness :
  HandlesFile "/var/lib/bcfg2" "/root"
              (Some ["/etc/bcfg2.conf"%string]) "/etc/../etc/bcfg2.conf" =
  HandlesFile "repo" "/tmp"
              (Some ["/etc/bcfg2.conf"%string]) "/etc/../etc/bcfg2.conf".
Proof.
  apply (HandlesFile_absolute_path "/var/lib/bcfg2" "/root" "repo" "/tmp"
           "/etc/../etc/bcfg2.conf" (Some ["/etc/bcfg2.conf"%string])).
  reflexivity.
Defined.

(* ================================================================== *)
(** ** Further properties of the run *)
(* ================================================================== *)

Lemma register_plugins_spec ps w :
  for_each ps (fun plugin => RegisterErrors (Errors plugin)) w =
  (Normal tt,
   with_errortypes (register_all (errortypes (handler w)) (flat_map Errors ps)) w).
Proof.
  revert w. induction ps as [|p ps IH]; intros w.
  - cbn. now rewrite with_errortypes_same.
  - cbn [for_each flat_map]. unfold bind.
    rewrite RegisterErrors_spec, IH, register_all_app. reflexivity.
Qed.

Lemma print_rows_spec (items : list (string * Handler)) w :
  for_each items (fun item =>
    print (Py.ljust 35 (fst item) ++ " " ++
           Py.ljust 35 (Handler_name (snd item)))) w =
  (Normal tt,
   mkWorld (handler w) (logged w) (stdout w ++ map table_row items) (events w)).
Proof.
  revert w. induction items as [|it items IH]; intros w.
  - destruct w. cbn. now rewrite app_nil_r.
  - cbn [for_each map]. unfold bind, print at 1. rewrite IH.
    cbn [handler logged stdout events]. rewrite <- app_assoc. reflexivity.
Qed.

(** X19.  The shape of every run, whatever its options and its
    outcome: plugins of the serverless list are instantiated and run
    one after the other in the order of the list, each instantiated
    just before it is run; only after the whole serverless list may
    the server core be started, and then plugins of the server list
    follow in order and the core is shut down, exactly once, also when
    an exception leaves the run. *)
Theorem run_trace (setup : Setup) (cli : CLI) (w : World) :
  exists r w' done1 rest1 done2 rest2 (started : bool),
    run setup cli w = (r, w') /\
    serverlessplugins cli = done1 ++ rest1 /\
    serverplugins cli = done2 ++ rest2 /\
    events w' = events w ++ plugin_events done1
                ++ (if started then server_events done2 else []) /\
    (started = true -> rest1 = []).
Proof.
  destruct (list_errors setup) eqn:Hl.
  { destruct (run_list_errors setup cli w Hl) as (w' & Hrun & Hev).
    exists (Normal 0), w', [], (serverlessplugins cli), [], (serverplugins cli), false.
    rewrite Hev. cbn. rewrite app_nil_r. repeat split; [assumption|discriminate]. }
  destruct (is_empty (serverplugins cli) && is_empty (serverlessplugins cli))%bool
    eqn:Hne.
  { apply andb_prop in Hne as [H1 H2].
    apply is_empty_true in H1. apply is_empty_true in H2.
    destruct (run_no_plugins setup cli w Hl H1 H2) as (w' & Hrun & Hev).
    exists (Normal 1), w', [], (serverlessplugins cli), [], (serverplugins cli), false.
    rewrite Hev. cbn. rewrite app_nil_r. repeat split; [assumption|discriminate]. }
  rewrite (run_unfolds setup cli w Hl Hne).
  destruct (run_serverless_spec cli w)
    as (r1 & w1 & done1 & rest1 & Hrun1 & Hps1 & _ & _ & Hev1 & Hr1).
  rewrite Hrun1.
  destruct r1 as [[]|e].
  2: { exists (Raised e), w1, done1, rest1, [], (serverplugins cli), false.
       rewrite app_nil_r. repeat split; try assumption. discriminate. }
  destruct (is_empty (serverplugins cli)).
  { eexists _, _, done1, rest1, [], (serverplugins cli), false.
    split; [apply surjective_pairing|].
    destruct (report_keeps setup w1) as (_ & Hev & _).
    rewrite Hev, app_nil_r. repeat split; try assumption. discriminate. }
  destruct (Py.truthy (errors (handler w1))).
  { eexists _, _, done1, rest1, [], (serverplugins cli), false.
    split; [apply surjective_pairing|].
    destruct (report_keeps setup (printed skip_notice w1)) as (_ & Hev & _).
    rewrite Hev, app_nil_r. cbn [printed events].
    repeat split; try assumption. discriminate. }
  destruct (run_server_spec cli w1)
    as [(e & _ & Hrun2)|(_ & r2 & w2 & done2 & rest2 & Hrun2 & Hps2 & _ & _ & Hev2 & _)];
    rewrite Hrun2.
  { exists (Raised e), w1, done1, rest1, [], (serverplugins cli), false.
    rewrite app_nil_r. repeat split; try assumption. discriminate. }
  assert (Hshape : events w2 = events w ++ plugin_events done1 ++ server_events done2).
  { rewrite Hev2, Hev1. unfold server_events. now rewrite <- !app_assoc. }
  destruct r2 as [[]|e].
  - eexists _, _, done1, rest1, done2, rest2, true.
    split; [apply surjective_pairing|].
    destruct (report_keeps setup w2) as (_ & Hev & _).
    rewrite Hev. repeat split; try assumption. intros _. exact Hr1.
  - exists (Raised e), w2, done1, rest1, done2, rest2, true.
    repeat split; try assumption. intros _. exact Hr1.
Qed.

(** X20.  A clean serverless phase opens the server phase: without
    [--list-errors], when there is a server plugin, the server core
    starts, no plugin raises and the findings of the serverless
    plugins leave the error count at zero, the run returns, every
    serverless plugin and then, between the start and the shutdown of
    the core, every server plugin is instantiated and run, and the
    final handler is the one the findings of all of them give.  When
    instead the core fails to start, its exception leaves the run
    after the serverless plugins, no server plugin is instantiated and
    nothing is shut down. *)
Theorem clean_serverless_runs_server (setup : Setup) (cli : CLI) (w : World) :
  list_errors setup = false ->
  serverplugins cli <> [] ->
  Forall (fun q => snd (Run q (files cli)) = Returns) (serverlessplugins cli) ->
  Forall (fun q => snd (Run q (files cli)) = Returns) (serverplugins cli) ->
  errors (after_plugins (files cli) (handler w) (serverlessplugins cli)) = 0 ->
  match core cli with
  | None =>
      exists w',
        run setup cli w = (Normal (status (handler w')), w') /\
        events w' = events w ++ plugin_events (serverlessplugins cli)
                    ++ server_events (serverplugins cli) /\
        handler w' = after_plugins (files cli) (handler w)
                       (serverlessplugins cli ++ serverplugins cli)
  | Some e =>
      exists w',
        run setup cli w = (Raised e, w') /\
        events w' = events w ++ plugin_events (serverlessplugins cli) /\
        handler w' = after_plugins (files cli) (handler w) (serverlessplugins cli)
  end.
Proof.
  intros Hl Hns Hall1 Hall2 Hclean.
  assert (Hne : (is_empty (serverplugins cli)
                 && is_empty (serverlessplugins cli))%bool = false).
  { now rewrite (is_empty_false _ Hns). }
  rewrite (run_unfolds setup cli w Hl Hne).
  destruct (run_phase_returns Serverless cli w I Hall1) as (w1 & Hrun1 & Hh1 & _ & Hev1).
  cbn [run_phase phase_plugins phase_opens phase_closes app] in *.
  rewrite app_nil_r in Hev1. rewrite Hrun1, (is_empty_false _ Hns).
  rewrite <- Hh1 in Hclean. apply truthy_false in Hclean. rewrite Hclean.
  destruct (core cli) as [e|] eqn:Hcore.
  { exists w1. unfold run_server_plugins. rewrite Hcore.
    repeat split; assumption. }
  destruct (run_phase_returns Server cli w1 Hcore Hall2) as (w2 & Hrun2 & Hh2 & _ & Hev2).
  cbn [run_phase phase_plugins phase_opens phase_closes] in *.
  rewrite Hrun2.
  destruct (report_keeps setup w2) as (Hh & Hev & _).
  exists (snd (report setup w2)). rewrite Hh, Hev. split; [reflexivity|].
  split.
  - rewrite Hev2, Hev1. unfold server_events. now rewrite <- !app_assoc.
  - now rewrite Hh2, Hh1, after_plugins_app.
Qed.

Lemma clean_serverless_runs_server_witness :
  exists w',
    run (Sample.setup_of [Sample.Paths; Sample.Metadata])
        (Sample.cli_of [Sample.Paths] [Sample.Metadata]) boot
      = (Normal (status (handler w')), w') /\
    events w' = events boot
                ++ plugin_events
                     (serverlessplugins (Sample.cli_of [Sample.Paths] [Sample.Metadata]))
                ++ server_events
                     (serverplugins (Sample.cli_of [Sample.Paths] [Sample.Metadata])) /\
    handler w' =
      after_plugins (files (Sample.cli_of [Sample.Paths] [Sample.Metadata]))
        (handler boot)
        (serverlessplugins (Sample.cli_of [Sample.Paths] [Sample.Metadata])
         ++ serverplugins (Sample.cli_of [Sample.Paths] [Sample.Metadata])).
Proof.
  apply (clean_serverless_runs_server
           (Sample.setup_of [Sample.Paths; Sample.Metadata])
           (Sample.cli_of [Sample.Paths] [Sample.Metadata]) boot).
  - reflexivity.
  - discriminate.
  - repeat constructor.
  - repeat constructor.
  - reflexivity.
Defined.

(** X21.  What a run that returns has printed (without
    [--list-errors], with some plugin): the notice that the server
    phase is skipped, which comes with exit code 2 only, and then the
    two lines of the summary with the final counts, exactly when the
    exit code is not zero or [verbose] is set.  A run that returns 0
    without [verbose] prints nothing. *)
Theorem run_prints_summary
        (setup : Setup) (cli : CLI) (w w' : World) (code : Z) :
  list_errors setup = false ->
  serverlessplugins cli ++ serverplugins cli <> [] ->
  run setup cli w = (Normal code, w') ->
  exists notice,
    stdout w' =
      stdout w ++ notice
      ++ (if (negb (code =? 0) || verbose setup)%bool
          then [(Py.fmt_d (errors (handler w')) ++ " errors")%string;
                (Py.fmt_d (warnings (handler w')) ++ " warnings")%string]
          else []) /\
    (notice = [] \/ (notice = [skip_notice] /\ code = 2)).
Proof.
  intros Hl Hsome Hrun.
  rewrite (run_unfolds setup cli w Hl (nonempty_lists _ _ Hsome)) in Hrun.
  destruct (run_serverless_spec cli w)
    as (r1 & w1 & done1 & rest1 & Hrun1 & _ & _ & Hs1 & _).
  rewrite Hrun1 in Hrun.
  destruct r1 as [[]|e]; [|discriminate].
  assert (Hrep : forall w2 notice,
             report setup w2 = (Normal code, w') ->
             stdout w2 = stdout w ++ notice ->
             stdout w' =
               stdout w ++ notice
               ++ (if (negb (code =? 0) || verbose setup)%bool
                   then [(Py.fmt_d (errors (handler w')) ++ " errors")%string;
                         (Py.fmt_d (warnings (handler w')) ++ " warnings")%string]
                   else [])).
  { intros w2 notice Hr Hs2.
    destruct (report_result setup w2) as (Hc & Hh & Hs).
    rewrite Hr in Hc, Hh, Hs. cbn [fst snd] in Hc, Hh, Hs.
    injection Hc as ->. rewrite Hs, Hh, Hs2, <- app_assoc. reflexivity. }
  destruct (is_empty (serverplugins cli)).
  { exists []. split; [|now left].
    apply (Hrep w1); [assumption|]. now rewrite app_nil_r. }
  destruct (Py.truthy (errors (handler w1))) eqn:T.
  { exists [skip_notice]. split.
    - apply (Hrep (printed skip_notice w1)); [assumption|].
      cbn [printed stdout]. now rewrite Hs1.
    - right. split; [reflexivity|].
      destruct (report_result setup (printed skip_notice w1)) as (Hc & _).
      rewrite Hrun in Hc. cbn [fst printed handler] in Hc.
      injection Hc as ->. unfold status. now rewrite T. }
  destruct (run_server_spec cli w1)
    as [(e & _ & Hrun2)|(_ & r2 & w2 & done2 & rest2 & Hrun2 & _ & _ & Hs2 & _)];
    rewrite Hrun2 in Hrun; [discriminate|].
  destruct r2 as [[]|e]; [|discriminate].
  exists []. split; [|now left].
  apply (Hrep w2); [assumption|]. now rewrite app_nil_r, Hs2.
Qed.

Lemma run_prints_summary_witness :
  exists notice,
    stdout (snd (run (Sample.setup_of [Sample.Groups; Sample.Metadata])
                     (Sample.cli_of [Sample.Groups] [Sample.Metadata]) boot)) =
      stdout boot ++ notice
      ++ (if (negb (2 =? 0)
              || verbose (Sample.setup_of [Sample.Groups; Sample.Metadata]))%bool
          then [(Py.fmt_d
                   (errors (handler
                      (snd (run (Sample.setup_of [Sample.Groups; Sample.Metadata])
                                (Sample.cli_of [Sample.Groups] [Sample.Metadata])
                                boot))))
                 ++ " errors")%string;
                (Py.fmt_d
                   (warnings (handler
                      (snd (run (Sample.setup_of [Sample.Groups; Sample.Metadata])
                                (Sample.cli_of [Sample.Groups] [Sample.Metadata])
                                boot))))
                 ++ " warnings")%string]
          else []) /\
    (notice = [] \/ (notice = [skip_notice] /\ 2 = 2)).
Proof.
  apply (run_prints_summary
           (Sample.setup_of [Sample.Groups; Sample.Metadata])
           (Sample.cli_of [Sample.Groups] [Sample.Metadata]) boot
           (snd (run (Sample.setup_of [Sample.Groups; Sample.Metadata])
                     (Sample.cli_of [Sample.Groups] [Sample.Metadata]) boot)) 2).
  - reflexivity.
  - discriminate.
  - vm_compute. reflexivity.
Defined.

(** X22.  With [--list-errors], [run] returns 0 after printing the
    header and one line per registered kind, in registration order.
    The kinds of the server plugins are registered before those of the
    serverless plugins, so for a kind both declare the table shows the
    action of the server plugin (unless the kind was registered
    before).  Counters, log and observation points are untouched. *)
Theorem list_errors_prints_registry (setup : Setup) (cli : CLI) (w : World) :
  list_errors setup = true ->
  exists w',
    run setup cli w = (Normal 0, w') /\
    errortypes (handler w') =
      register_all (errortypes (handler w))
        (flat_map Errors (serverplugins cli ++ serverlessplugins cli)) /\
    stdout w' =
      stdout w ++ table_header :: map table_row (errortypes (handler w')) /\
    errors (handler w') = errors (handler w) /\
    warnings (handler w') = warnings (handler w) /\
    logged w' = logged w /\ events w' = events w.
Proof.
  intros Hl. unfold run. rewrite Hl.
  unfold bind at 1. rewrite register_plugins_spec.
  unfold bind at 1, print at 1. unfold bind at 1, get_handler.
  unfold bind. rewrite print_rows_spec.
  eexists. split; [reflexivity|].
  cbn [with_errortypes handler errortypes errors warnings logged stdout events].
  rewrite <- app_assoc. repeat split.
Qed.

Lemma list_errors_prints_registry_witness :
  exists w',
    run (mkSetup true false false None [Sample.Groups; Sample2.Rules; Sample.Paths])
        (Sample.cli_of [Sample.Groups; Sample.Paths] [Sample2.Rules]) boot
      = (Normal 0, w') /\
    errortypes (handler w') =
      register_all (errortypes (handler boot))
        (flat_map Errors
           (serverplugins (Sample.cli_of [Sample.Groups; Sample.Paths] [Sample2.Rules])
            ++ serverlessplugins
                 (Sample.cli_of [Sample.Groups; Sample.Paths] [Sample2.Rules]))) /\
    stdout w' =
      stdout boot ++ table_header :: map table_row (errortypes (handler w')) /\
    errors (handler w') = errors (handler boot) /\
    warnings (handler w') = warnings (handler boot) /\
    logged w' = logged boot /\ events w' = events boot.
Proof.
  apply (list_errors_prints_registry
           (mkSetup true false false None [Sample.Groups; Sample2.Rules; Sample.Paths])
           (Sample.cli_of [Sample.Groups; Sample.Paths] [Sample2.Rules]) boot).
  reflexivity.
Defined.

(** X24.  No run lowers a counter: whatever the options, the plugins
    and the outcome, an exception included, both counters of the
    handler are at the end at least what they were at the start. *)
Theorem run_never_lowers_counters (setup : Setup) (cli : CLI) (w : World) :
  errors (handler w) <= errors (handler (snd (run setup cli w))) /\
  warnings (handler w) <= warnings (handler (snd (run setup cli w))).
Proof.
  destruct (list_errors setup) eqn:Hl.
  { assert (H : exists w', run setup cli w = (Normal 0, w') /\
                  errors (handler w') = errors (handler w) /\
                  warnings (handler w') = warnings (handler w)).
    { unfold run. rewrite Hl.
      unfold bind at 1. rewrite register_plugins_spec.
      unfold bind at 1, print at 1. unfold bind at 1, get_handler.
      unfold bind. rewrite print_rows_spec.
      eexists. split; [reflexivity|]. split; reflexivity. }
    destruct H as (w' & Hrun & He & Hw). rewrite Hrun. cbn [snd]. lia. }
  destruct (is_empty (serverplugins cli) && is_empty (serverlessplugins cli))%bool
    eqn:Hne.
  { unfold run. rewrite Hl, Hne. cbn. lia. }
  rewrite (run_unfolds setup cli w Hl Hne).
  destruct (run_serverless_spec cli w)
    as (r1 & w1 & done1 & rest1 & Hrun1 & _ & Hh1 & _).
  rewrite Hrun1.
  destruct (after_plugins_monotone (files cli) done1 (handler w)) as [He1 Hw1].
  rewrite <- Hh1 in He1, Hw1.
  destruct r1 as [[]|e]; [|cbn [snd]; lia].
  destruct (is_empty (serverplugins cli)).
  { destruct (report_keeps setup w1) as (Hh & _). rewrite Hh. lia. }
  destruct (Py.truthy (errors (handler w1))).
  { destruct (report_keeps setup (printed skip_notice w1)) as (Hh & _).
    rewrite Hh. cbn [printed handler]. lia. }
  destruct (run_server_spec cli w1)
    as [(e & _ & Hrun2)|(_ & r2 & w2 & done2 & rest2 & Hrun2 & _ & Hh2 & _)];
    rewrite Hrun2; [cbn [snd]; lia|].
  destruct (after_plugins_monotone (files cli) done2 (handler w1)) as [He2 Hw2].
  rewrite <- Hh2 in He2, Hw2.
  destruct r2 as [[]|e]; [|cbn [snd]; lia].
  destruct (report_keeps setup w2) as (Hh & _). rewrite Hh. lia.
Qed.

Lemma after_plugins_errortypes fs ps h :
  errortypes (after_plugins fs h ps) =
  register_all (errortypes h) (flat_map Errors ps).
Proof.
  unfold after_plugins. revert h.
  induction ps as [|p ps IH]; intros h; [reflexivity|].
  cbn [fold_left flat_map]. rewrite IH, register_all_app.
  unfold after_plugin. now rewrite tally_errortypes.
Qed.

(** X25.  Declarations last for the run: after a loop over plugins
    that all return, the registry is the old one extended by the
    declarations of these plugins, taken in the order in which the
    plugins ran.  A kind that was new therefore has the handler of the
    first plugin that declares it, and no later plugin changes it. *)
Theorem plugins_register_in_order
        (cli : CLI) (ps : list PluginClass) (w : World) :
  Forall (fun q => snd (Run q (files cli)) = Returns) ps ->
  exists w',
    for_each ps (run_one cli) w = (Normal tt, w') /\
    errortypes (handler w') =
      register_all (errortypes (handler w)) (flat_map Errors ps) /\
    forall k,
      errortypes_get k (errortypes (handler w)) = None ->
      errortypes_get k (errortypes (handler w')) =
        option_map handler_of_action (items_get k (flat_map Errors ps)).
Proof.
  intros Hall.
  destruct (loop_returns cli ps w Hall) as (w' & Hrun & Hh & _).
  exists w'. split; [assumption|].
  rewrite Hh, after_plugins_errortypes. split; [reflexivity|].
  intros k Hnew. now rewrite register_all_get, Hnew.
Qed.

Lemma plugins_register_in_order_witness :
  exists w',
    for_each [Sample.Paths; Sample2.Rules]
             (run_one (Sample.cli_of [Sample.Paths] [Sample2.Rules])) boot
      = (Normal tt, w') /\
    errortypes (handler w') =
      register_all (errortypes (handler boot))
                   (flat_map Errors [Sample.Paths; Sample2.Rules]) /\
    forall k,
      errortypes_get k (errortypes (handler boot)) = None ->
      errortypes_get k (errortypes (handler w')) =
        option_map handler_of_action
                   (items_get k (flat_map Errors [Sample.Paths; Sample2.Rules])).
Proof.
  apply (plugins_register_in_order
           (Sample.cli_of [Sample.Paths] [Sample2.Rules])
           [Sample.Paths; Sample2.Rules] boot).
  repeat constructor.
Defined.

(** X26.  Leading lines for which the wrapper yields nothing are
    dropped without a trace: when the first line of a message wraps to
    no line at all, the message is logged exactly as the rest of it
    would be, and the prefix goes to the first line that is emitted. *)
Theorem log_drops_empty_first_line
        (p1 rest prefix : string) (lvl : Level) (w : World) :
  one_line p1 = true ->
  _wrapper (handler w) p1 = [] ->
  _log (p1 ++ NL ++ rest) lvl prefix w = _log rest lvl prefix w.
Proof.
  intros H1 Hw. rewrite !_log_spec. unfold rendered, Py.splitlines.
  rewrite (splitlines_from_one_line p1) by assumption.
  rewrite splitlines_from_newline. cbn [append map concat].
  now rewrite Hw.
Qed.

Lemma log_drops_empty_first_line_witness :
  _log ("   " ++ NL ++ "group web is defined twice") ERROR "ERROR: "
       (mkWorld (mkErrorHandler 0 0 (Sample.greedy_wrap 20) []) [] [] [])
  = _log "group web is defined twice" ERROR "ERROR: "
         (mkWorld (mkErrorHandler 0 0 (Sample.greedy_wrap 20) []) [] [] []).
Proof.
  apply (log_drops_empty_first_line "   " "group web is defined twice"
           "ERROR: " ERROR
           (mkWorld (mkErrorHandler 0 0 (Sample.greedy_wrap 20) []) [] [] [])).
  - reflexivity.
  - reflexivity.
Defined.

(** The table of [--list-errors] and the run can disagree: [Paths]
    (serverless) declares [stale-path] as a warning and [Rules]
    (server) as an error; the table shows [error], the run counts a
    warning. *)
Example table_and_run_disagree :
  (exists w,
     bcfg2_lint Sample.piped
       (mkSetup true false false None [Sample.Paths; Sample2.Rules])
       = (Normal 0, w) /\
     errortypes_get "stale-path" (errortypes (handler w)) = Some h_error) /\
  (exists w,
     bcfg2_lint Sample.piped
       (mkSetup false false false None [Sample.Paths; Sample2.Rules])
       = (Normal 3, w) /\
     errortypes_get "stale-path" (errortypes (handler w)) = Some h_warn).
Proof.
  split; eexists; (split; [vm_compute; reflexivity|reflexivity]).
Qed.

(* ================================================================== *)
(** ** The arguments of [bcfg2-admin minestruct] *)
(* ================================================================== *)

Lemma scan_from_app s args1 args2 :
  Minestruct.scan_from s (args1 ++ args2) =
  Minestruct.scan_from (Minestruct.scan_from s args1) args2.
Proof. unfold Minestruct.scan_from. apply fold_left_app. Qed.

Lemma step_keeps_invariant s arg :
  (Minestruct.write_to_file s = true <-> Minestruct.output_file s <> None) ->
  (Minestruct.file_arg s && Minestruct.groups_arg s)%bool = false ->
  (Minestruct.write_to_file (Minestruct.step s arg) = true <->
   Minestruct.output_file (Minestruct.step s arg) <> None) /\
  (Minestruct.file_arg (Minestruct.step s arg)
   && Minestruct.groups_arg (Minestruct.step s arg))%bool = false.
Proof.
  intros Hw Hx. unfold Minestruct.step.
  destruct (String.eqb arg "-f"); [cbn; split; [assumption|reflexivity]|].
  destruct (String.eqb arg "-g"); [cbn; split; [assumption|reflexivity]|].
  destruct (Minestruct.file_arg s) eqn:Ef.
  - cbn. split; [|reflexivity]. split; [discriminate|reflexivity].
  - destruct (Minestruct.groups_arg s) eqn:Eg; cbn;
      (split; [assumption|reflexivity]).
Qed.

(** X27.  Whatever the arguments, the scan ends with [write_to_file]
    set exactly when an output file was stored, and never with both
    modes (a file name is awaited, groups are collected) on: the later
    [open(output_file, 'w')] always gets a name. *)
Theorem scan_invariant (args : list string) :
  (Minestruct.write_to_file (Minestruct.scan args) = true <->
   Minestruct.output_file (Minestruct.scan args) <> None) /\
  (Minestruct.file_arg (Minestruct.scan args)
   && Minestruct.groups_arg (Minestruct.scan args))%bool = false.
Proof.
  unfold Minestruct.scan, Minestruct.scan_from.
  assert (H0 : (Minestruct.write_to_file Minestruct.start = true <->
                Minestruct.output_file Minestruct.start <> None) /\
               (Minestruct.file_arg Minestruct.start
                && Minestruct.groups_arg Minestruct.start)%bool = false).
  { cbn. split; [|reflexivity]. split; [discriminate|congruence]. }
  generalize dependent Minestruct.start.
  induction args as [|arg args IH]; intros s Hs; [exact Hs|].
  cbn [fold_left]. apply IH. destruct Hs. now apply step_keeps_invariant.
Qed.

Lemma scan_groups_run s gs :
  Minestruct.groups_arg s = true ->
  Minestruct.file_arg s = false ->
  forallb (fun g => negb (Minestruct.is_flag g)) gs = true ->
  Minestruct.scan_from s gs =
  Minestruct.mkScan (Minestruct.write_to_file s) false (Minestruct.output_file s)
                    (Minestruct.client s) true (Minestruct.groups s ++ gs).
Proof.
  revert s. induction gs as [|g gs IH]; intros s Hg Hf Hall.
  - destruct s. cbn in *. subst. now rewrite app_nil_r.
  - cbn [forallb] in Hall. apply andb_prop in Hall as [Hflag Hall].
    unfold Minestruct.is_flag in Hflag. apply negb_true_iff in Hflag.
    apply orb_false_iff in Hflag as [Hnf Hng].
    unfold Minestruct.scan_from. cbn [fold_left].
    fold (Minestruct.scan_from (Minestruct.step s g) gs).
    unfold Minestruct.step. rewrite Hnf, Hng, Hf, Hg.
    rewrite IH; cbn; try reflexivity; try assumption.
    now rewrite <- app_assoc.
Qed.

(** X28.  After [-g], every argument up to the next flag is taken as a
    group: none of them becomes the client, so a host name written
    after the groups is not the host that is looked up. *)
Theorem scan_groups_swallow (pre gs : list string) :
  forallb (fun g => negb (Minestruct.is_flag g)) gs = true ->
  Minestruct.groups (Minestruct.scan (pre ++ "-g"%string :: gs)) =
    Minestruct.groups (Minestruct.scan pre) ++ gs /\
  Minestruct.client (Minestruct.scan (pre ++ "-g"%string :: gs)) =
    Minestruct.client (Minestruct.scan pre) /\
  Minestruct.output_file (Minestruct.scan (pre ++ "-g"%string :: gs)) =
    Minestruct.output_file (Minestruct.scan pre).
Proof.
  intros Hall. unfold Minestruct.scan. rewrite scan_from_app.
  change (Minestruct.scan_from ?s ("-g"%string :: gs))
    with (Minestruct.scan_from (Minestruct.step s "-g") gs).
  rewrite scan_groups_run; [repeat split|reflexivity|reflexivity|assumption].
Qed.

Lemma scan_groups_swallow_witness :
  Minestruct.groups (Minestruct.scan ([] ++ "-g"%string :: ["web"; "host1"]%string)) =
    Minestruct.groups (Minestruct.scan []) ++ ["web"; "host1"]%string /\
  Minestruct.client (Minestruct.scan ([] ++ "-g"%string :: ["web"; "host1"]%string)) =
    Minestruct.client (Minestruct.scan []) /\
  Minestruct.output_file
    (Minestruct.scan ([] ++ "-g"%string :: ["web"; "host1"]%string)) =
    Minestruct.output_file (Minestruct.scan []).
Proof.
  apply (scan_groups_swallow [] ["web"; "host1"]%string). reflexivity.
Defined.

(** X29.  [-f] takes the one argument after it as the output file and
    ends both modes: the arguments that follow are scanned as if the
    groups had never been opened, so a later plain argument is the
    client. *)
Theorem scan_file_argument (pre post : list string) (name : string) :
  Minestruct.is_flag name = false ->
  Minestruct.scan (pre ++ "-f"%string :: name :: post) =
  Minestruct.scan_from
    (Minestruct.mkScan true false (Some name)
                       (Minestruct.client (Minestruct.scan pre)) false
                       (Minestruct.groups (Minestruct.scan pre)))
    post.
Proof.
  intros Hflag. unfold Minestruct.is_flag in Hflag.
  apply orb_false_iff in Hflag as [Hnf Hng].
  unfold Minestruct.scan. rewrite scan_from_app.
  unfold Minestruct.scan_from at 1. cbn [fold_left].
  fold (Minestruct.scan_from Minestruct.start pre).
  unfold Minestruct.step at 2. cbn [String.eqb Ascii.eqb Bool.eqb].
  unfold Minestruct.step at 1. rewrite Hnf, Hng. cbn.
  reflexivity.
Qed.

Lemma scan_file_argument_witness :
  Minestruct.scan (["-g"; "web"]%string ++ "-f"%string :: "out.xml"%string
                   :: ["host1"%string]) =
  Minestruct.scan_from
    (Minestruct.mkScan true false (Some "out.xml"%string)
                       (Minestruct.client (Minestruct.scan ["-g"; "web"]%string)) false
                       (Minestruct.groups (Minestruct.scan ["-g"; "web"]%string)))
    ["host1"%string].
Proof.
  apply (scan_file_argument ["-g"; "web"]%string ["host1"%string] "out.xml").
  reflexivity.
Defined.
